(** * The CARTEL47 frontend API client ([src/api.js])

    A shallow embedding of the [CartelAPI] class and of the browser
    facilities it touches (dynamic values, [localStorage], the global
    [fetch], [URLSearchParams], [JSON.stringify], [String.prototype.replace]),
    followed by the properties of the client stated in its specification.

    Conventions of the embedding:
    - a JavaScript string is the sequence of its UTF-8 bytes;
    - a JavaScript number is an integer (the status codes, limits, offsets
      and amounts this client handles); fractions, NaN and the infinities
      are outside the model;
    - an [async] method is a computation over the client's world that either
      returns a value (the promise resolves) or throws (the promise rejects);
    - the network is an oracle: what the global [fetch] answers to a request
      is a parameter of every method, and every call to it is logged;
    - [localStorage] is a finite map from keys to strings, without a quota. *)

From stdpp Require Import prelude strings gmap pretty.

#[local] Set Warnings "-register-all".
#[local] Open Scope string_scope.

(** ** JavaScript values *)

Inductive JsVal :=
  | JUndefined
  | JNull
  | JBool (b : bool)
  | JNum (n : Z)
  | JStr (s : string)
  | JArr (items : list JsVal)
  | JObj (props : list (string * JsVal)).

(** ToBoolean: what [if (v)], [!v], [v || w] and [v ? a : b] test. *)
Definition truthy (v : JsVal) : bool :=
  match v with
  | JUndefined | JNull => false
  | JBool b => b
  | JNum n => negb (n =? 0)%Z
  | JStr s => negb (String.eqb s "")
  | JArr _ | JObj _ => true
  end.

(** ToString: what a template literal [`${v}`], [new Error(v)],
    [localStorage.setItem(k, v)] and [params.append(k, v)] apply to [v].
    It is the string JavaScript gives on the values that [has_string_form]
    (below) accepts; on the others, an object with a [toString] member of its
    own, or an integer of 10^21 or more, JavaScript throws or prints an
    exponent, and statements about such values assume [has_string_form]. *)
Fixpoint toString (v : JsVal) : string :=
  match v with
  | JUndefined => "undefined"
  | JNull => "null"
  | JBool true => "true"
  | JBool false => "false"
  | JNum n => pretty n
  | JStr s => s
  | JArr items =>
      (fix join (l : list JsVal) : string :=
         match l with
         | [] => ""
         | x :: rest =>
             let elem := match x with
                         | JUndefined | JNull => ""
                         | _ => toString x
                         end in
             match rest with
             | [] => elem
             | _ :: _ => elem +:+ "," +:+ join rest
             end
         end) items
  | JObj _ => "[object Object]"
  end.

(** Errors: the objects this program throws and catches. *)
Record JsError := { name : string; message : string }.

(** [new Error(v)]: the message is [ToString(v)] unless [v] is undefined. *)
Definition new_Error (v : JsVal) : JsError :=
  {| name := "Error";
     message := match v with JUndefined => "" | _ => toString v end |}.

Definition TypeError (msg : string) : JsError :=
  {| name := "TypeError"; message := msg |}.

(** The outcome of evaluating an expression or awaiting a promise. *)
Inductive Completion (A : Type) :=
  | Return (a : A)
  | Throw (e : JsError).
Arguments Return {A} a.
Arguments Throw {A} e.

Fixpoint lookup_prop (k : string) (props : list (string * JsVal)) : option JsVal :=
  match props with
  | [] => None
  | (k', v) :: rest => if String.eqb k' k then Some v else lookup_prop k rest
  end.

(** Property read [v.k], for the keys this program reads ([error], [token],
    [userId], [status], [limit], [offset]): none of them is an own or
    inherited property of a boolean, number, string or array, so the read
    gives undefined there; on null and undefined the read throws. *)
Definition getProp (v : JsVal) (k : string) : Completion JsVal :=
  match v with
  | JUndefined =>
      Throw (TypeError ("Cannot read properties of undefined (reading '" +:+ k +:+ "')"))
  | JNull =>
      Throw (TypeError ("Cannot read properties of null (reading '" +:+ k +:+ "')"))
  | JObj props => Return (default JUndefined (lookup_prop k props))
  | _ => Return JUndefined
  end.

(** ** Strings *)

Definition hex_digit (upper : bool) (n : N) : Ascii.ascii :=
  if (n <? 10)%N then Ascii.ascii_of_N (48 + n)
  else Ascii.ascii_of_N ((if upper then 55 else 87) + n).

Definition hex_byte (upper : bool) (c : Ascii.ascii) : string :=
  let n := Ascii.N_of_ascii c in
  String (hex_digit upper (n / 16)) (String (hex_digit upper (n mod 16)) "").

Fixpoint skip (n : nat) (s : string) : string :=
  match n, s with
  | S n', String _ s' => skip n' s'
  | _, _ => s
  end.

(** [s.replace(pattern, replacement)] with a string pattern: the first
    occurrence of [pattern] in [s] is replaced, the rest of [s] is kept.
    ([replacement] is taken literally: it holds no [$] in this program.) *)
Fixpoint replace (pattern replacement s : string) : string :=
  if String.prefix pattern s then replacement +:+ skip (String.length pattern) s
  else match s with
       | "" => ""
       | String c s' => String c (replace pattern replacement s')
       end.

(** *** URLSearchParams *)

Definition URLSearchParams := list (string * string).

Definition append (params : URLSearchParams) (k v : string) : URLSearchParams :=
  (params ++ [(k, v)])%list.

(** The application/x-www-form-urlencoded byte serializer. *)
Definition urlencode_byte (c : Ascii.ascii) : string :=
  let n := Ascii.N_of_ascii c in
  if (n =? 32)%N then "+"
  else if ((n =? 42) || (n =? 45) || (n =? 46) || (n =? 95)
           || ((48 <=? n) && (n <=? 57))
           || ((65 <=? n) && (n <=? 90))
           || ((97 <=? n) && (n <=? 122)))%N
       then String c ""
       else "%" +:+ hex_byte true c.

Fixpoint urlencode (s : string) : string :=
  match s with
  | "" => ""
  | String c rest => urlencode_byte c +:+ urlencode rest
  end.

(** [params.toString()] *)
Fixpoint URLSearchParams_toString (params : URLSearchParams) : string :=
  match params with
  | [] => ""
  | (k, v) :: rest =>
      let pair := urlencode k +:+ "=" +:+ urlencode v in
      match rest with
      | [] => pair
      | _ :: _ => pair +:+ "&" +:+ URLSearchParams_toString rest
      end
  end.

(** *** JSON.stringify *)

Definition dquote : Ascii.ascii := Ascii.ascii_of_N 34.

Definition quote_char (c : Ascii.ascii) : string :=
  let n := Ascii.N_of_ascii c in
  if (n =? 8)%N then "\b"
  else if (n =? 9)%N then "\t"
  else if (n =? 10)%N then "\n"
  else if (n =? 12)%N then "\f"
  else if (n =? 13)%N then "\r"
  else if (n =? 34)%N then "\" +:+ String dquote ""
  else if (n =? 92)%N then "\\"
  else if (n <? 32)%N then "\u00" +:+ hex_byte false c
  else String c "".

Fixpoint quote_chars (s : string) : string :=
  match s with
  | "" => ""
  | String c rest => quote_char c +:+ quote_chars rest
  end.

Definition quote (s : string) : string :=
  String dquote (quote_chars s +:+ String dquote "").

(** [JSON.stringify(v)]; [None] is the undefined it gives for undefined.
    Numbers are printed in full, as JavaScript does below 10^21. *)
Fixpoint JSON_stringify (v : JsVal) : option string :=
  match v with
  | JUndefined => None
  | JNull => Some "null"
  | JBool true => Some "true"
  | JBool false => Some "false"
  | JNum n => Some (pretty n)
  | JStr s => Some (quote s)
  | JArr items =>
      Some ("[" +:+
        (fix elems (l : list JsVal) : string :=
           match l with
           | [] => ""
           | x :: rest =>
               let elem := default "null" (JSON_stringify x) in
               match rest with
               | [] => elem
               | _ :: _ => elem +:+ "," +:+ elems rest
               end
           end) items +:+ "]")
  | JObj props =>
      Some ("{" +:+
        (fix members (l : list (string * JsVal)) (first : bool) : string :=
           match l with
           | [] => ""
           | (k, x) :: rest =>
               match JSON_stringify x with
               | None => members rest first
               | Some s =>
                   (if first then "" else ",") +:+ quote k +:+ ":" +:+ s
                     +:+ members rest false
               end
           end) props true +:+ "}")
  end.

(** ** The browser: storage, network, the client object *)

(** The init object handed to the global [fetch], which is also the shape of
    the [options] of the client's generic request helper. Absent properties
    are [None]. Header objects are maps from header name to value. *)
Record RequestInit := {
  method : option string;
  headers : option (gmap string string);
  body : option string;
}.

(** [{}] *)
Definition no_options : RequestInit :=
  {| method := None; headers := None; body := None |}.

(** One call [fetch(url, init)] of the global [fetch]; [init] is [None] when
    the call passes the URL alone. *)
Record Request := { url : string; init : option RequestInit }.

(** A response. [json] is what [await response.json()] completes with: the
    parsed body, or the parser's error when the body is not JSON. *)
Record Response := { status : Z; json : Completion JsVal }.

(** [response.ok]: the status is in the range 200-299. *)
Definition ok (response : Response) : bool :=
  (200 <=? status response)%Z && (status response <=? 299)%Z.

(** What the global [fetch] does with a request: it resolves with a response
    (of any status) or rejects (DNS failure, connection refused, ...). *)
Inductive Outcome :=
  | Resolves (response : Response)
  | Rejects (error : JsError).

(** The network: the answer to a request, given the requests made before. *)
Definition Transport := list Request → Request → Outcome.

(** The environment the module is loaded in. *)
Record Env := {
  REACT_APP_BACKEND_URL : option string;   (* process.env.REACT_APP_BACKEND_URL *)
  network : Transport;
}.

(** [const API_BASE_URL = process.env.REACT_APP_BACKEND_URL || '...'] *)
Definition API_BASE_URL (env : Env) : string :=
  match REACT_APP_BACKEND_URL env with
  | Some configured =>
      if truthy (JStr configured) then configured else "http://localhost:3001/api"
  | None => "http://localhost:3001/api"
  end.

(** The state the client's methods read and write: the three fields of
    [this], [localStorage], and the log of the calls of the global [fetch]. *)
Record World := {
  token : JsVal;
  userId : JsVal;
  walletAddress : JsVal;
  localStorage : gmap string string;
  requests : list Request;
}.

(** ** Computations *)

Definition M (A : Type) : Type := World → Completion A * World.

#[export] Instance M_ret : MRet M := λ A a w, (Return a, w).

#[export] Instance M_bind : MBind M := λ A B f m w,
  match m w with
  | (Return a, w') => f a w'
  | (Throw e, w') => (Throw e, w')
  end.

Definition throw {A : Type} (e : JsError) : M A := λ w, (Throw e, w).

(** Evaluation of an expression that may throw. *)
Definition eval {A : Type} (c : Completion A) : M A := λ w, (c, w).

(** [try { m } catch (error) { handler }] *)
Definition try_catch {A : Type} (m : M A) (handler : JsError → M A) : M A := λ w,
  match m w with
  | (Return a, w') => (Return a, w')
  | (Throw e, w') => handler e w'
  end.

Definition this_token : M JsVal := λ w, (Return (token w), w).
Definition this_userId : M JsVal := λ w, (Return (userId w), w).

Definition set_this_token (v : JsVal) : M unit := λ w,
  (Return (), {| token := v; userId := userId w; walletAddress := walletAddress w;
                 localStorage := localStorage w; requests := requests w |}).

Definition set_this_userId (v : JsVal) : M unit := λ w,
  (Return (), {| token := token w; userId := v; walletAddress := walletAddress w;
                 localStorage := localStorage w; requests := requests w |}).

Definition set_this_walletAddress (v : JsVal) : M unit := λ w,
  (Return (), {| token := token w; userId := userId w; walletAddress := v;
                 localStorage := localStorage w; requests := requests w |}).

(** [localStorage.getItem(k)]: the stored string, or null. *)
Definition getItem (storage : gmap string string) (k : string) : JsVal :=
  match storage !! k with
  | Some s => JStr s
  | None => JNull
  end.

(** [localStorage.setItem(k, v)] stores [ToString(v)]. The store takes every
    write (no quota), and the value is one with a string form. *)
Definition localStorage_setItem (k : string) (v : JsVal) : M unit := λ w,
  (Return (), {| token := token w; userId := userId w; walletAddress := walletAddress w;
                 localStorage := <[k := toString v]> (localStorage w);
                 requests := requests w |}).

(** [localStorage.removeItem(k)] *)
Definition localStorage_removeItem (k : string) : M unit := λ w,
  (Return (), {| token := token w; userId := userId w; walletAddress := walletAddress w;
                 localStorage := delete k (localStorage w);
                 requests := requests w |}).

(** The world after one more call of the global [fetch]. *)
Definition logged (request : Request) (w : World) : World :=
  {| token := token w; userId := userId w; walletAddress := walletAddress w;
     localStorage := localStorage w;
     requests := (requests w ++ [request])%list |}.

(** [await fetch(url, init)]: the call is logged, then the network answers. *)
Definition global_fetch (env : Env) (url : string) (init : option RequestInit)
    : M Response := λ w,
  let request := {| url := url; init := init |} in
  match network env (requests w) request with
  | Resolves response => (Return response, logged request w)
  | Rejects error => (Throw error, logged request w)
  end.

(** ** The client: [class CartelAPI] *)

Module CartelAPI.

(** [constructor()]: the session is read from storage; nothing is sent. *)
Definition constructor (storage : gmap string string) : World :=
  {| token := getItem storage "cartel47_token";
     userId := getItem storage "cartel47_userId";
     walletAddress := getItem storage "cartel47_wallet";
     localStorage := storage;
     requests := [] |}.

Definition setToken (token userId walletAddress : JsVal) : M unit :=
  set_this_token token;;
  set_this_userId userId;;
  set_this_walletAddress walletAddress;;
  localStorage_setItem "cartel47_token" token;;
  localStorage_setItem "cartel47_userId" userId;;
  localStorage_setItem "cartel47_wallet" walletAddress.

Definition clearSession : M unit :=
  set_this_token JNull;;
  set_this_userId JNull;;
  set_this_walletAddress JNull;;
  localStorage_removeItem "cartel47_token";;
  localStorage_removeItem "cartel47_userId";;
  localStorage_removeItem "cartel47_wallet".

(** [{ 'Content-Type': 'application/json', ...options.headers }]: the
    properties spread later win. *)
Definition default_headers (options : RequestInit) : gmap string string :=
  default ∅ (headers options) ∪ {[ "Content-Type" := "application/json" ]}.

(** The generic request helper, [async fetch(endpoint, options = {})]. *)
Definition fetch (env : Env) (endpoint : string) (options : RequestInit) : M JsVal :=
  let headers := default_headers options in
  token ← this_token;
  let headers :=
    if truthy token then <[ "Authorization" := "Bearer " +:+ toString token ]> headers
    else headers in
  response ← global_fetch env (API_BASE_URL env +:+ endpoint)
               (Some {| method := method options;
                        body := body options;
                        headers := Some headers |});
  if negb (ok response) then
    error ← eval (json response);
    error_error ← eval (getProp error "error");
    throw (new_Error (if truthy error_error then error_error
                      else JStr ("API Error: " +:+ pretty (status response))))
  else
    eval (json response).

Definition not_authenticated : JsError := new_Error (JStr "Not authenticated").

Definition authenticateWallet (env : Env) (walletAddress signature : string)
    : M JsVal :=
  data ← fetch env "/auth/connect"
           {| method := Some "POST";
              headers := None;
              body := JSON_stringify (JObj [("walletAddress", JStr walletAddress);
                                            ("signature", JStr signature)]) |};
  data_token ← eval (getProp data "token");
  data_userId ← eval (getProp data "userId");
  setToken data_token data_userId (JStr walletAddress);;
  mret data.

Definition getAllGames (env : Env) : M JsVal :=
  fetch env "/games" no_options.

Definition getGamesByCategory (env : Env) (category : string) : M JsVal :=
  fetch env ("/games?category=" +:+ category) no_options.

Definition getGame (env : Env) (gameId : string) : M JsVal :=
  fetch env ("/games/" +:+ gameId) no_options.

Definition placeBet (env : Env) (gameId : string) (betAmount : Z)
    (clientSeed : string) : M JsVal :=
  token ← this_token;
  if negb (truthy token) then throw not_authenticated else
  data ← fetch env "/bets/place"
           {| method := Some "POST";
              headers := None;
              body := JSON_stringify (JObj [("gameId", JStr gameId);
                                            ("betAmount", JNum betAmount);
                                            ("clientSeed", JStr clientSeed)]) |};
  mret data.

Definition getBet (env : Env) (betId : string) : M JsVal :=
  token ← this_token;
  if negb (truthy token) then throw not_authenticated else
  fetch env ("/bets/" +:+ betId) no_options.

Definition settleBet (env : Env) (betId : string) : M JsVal :=
  token ← this_token;
  if negb (truthy token) then throw not_authenticated else
  data ← fetch env ("/bets/" +:+ betId +:+ "/settle")
           {| method := Some "POST";
              headers := None;
              body := JSON_stringify (JObj []) |};
  mret data.

(** The [params] that [getUserBets] builds from its options. *)
Definition getUserBets_params (options : JsVal) : Completion URLSearchParams :=
  let params : URLSearchParams := [] in
  match getProp options "status" with
  | Throw e => Throw e
  | Return status =>
      let params := if truthy status then append params "status" (toString status)
                    else params in
      match getProp options "limit" with
      | Throw e => Throw e
      | Return limit =>
          let params := if truthy limit then append params "limit" (toString limit)
                        else params in
          match getProp options "offset" with
          | Throw e => Throw e
          | Return offset =>
              Return (if truthy offset then append params "offset" (toString offset)
                      else params)
          end
      end
  end.

(** [async getUserBets(options = {})] *)
Definition getUserBets (env : Env) (options : JsVal) : M JsVal :=
  let options := match options with JUndefined => JObj [] | _ => options end in
  userId ← this_userId;
  if negb (truthy userId) then throw not_authenticated else
  params ← eval (getUserBets_params options);
  fetch env ("/bets/user/" +:+ toString userId +:+ "?"
               +:+ URLSearchParams_toString params) no_options.

Definition deposit (env : Env) (amount : Z) (tokenSymbol : string) : M JsVal :=
  token ← this_token;
  if negb (truthy token) then throw not_authenticated else
  fetch env "/transactions/deposit"
    {| method := Some "POST";
       headers := None;
       body := JSON_stringify (JObj [("amount", JNum amount);
                                     ("tokenSymbol", JStr tokenSymbol)]) |}.

Definition withdraw (env : Env) (amount : Z) (tokenSymbol : string) : M JsVal :=
  token ← this_token;
  if negb (truthy token) then throw not_authenticated else
  fetch env "/transactions/withdraw"
    {| method := Some "POST";
       headers := None;
       body := JSON_stringify (JObj [("amount", JNum amount);
                                     ("tokenSymbol", JStr tokenSymbol)]) |}.

(** [async getTransactions(type = null)] *)
Definition getTransactions (env : Env) (type : JsVal) : M JsVal :=
  let type := match type with JUndefined => JNull | _ => type end in
  token ← this_token;
  if negb (truthy token) then throw not_authenticated else
  let url := if truthy type then "/transactions?type=" +:+ toString type
             else "/transactions" in
  fetch env url no_options.

Definition checkHealth (env : Env) : M JsVal :=
  try_catch
    (response ← global_fetch env
                  (replace "/api" "" (API_BASE_URL env) +:+ "/health") None;
     mret (if ok response then JObj [("status", JStr "healthy")]
           else JObj [("status", JStr "unhealthy")]))
    (λ error, mret (JObj [("status", JStr "offline");
                          ("error", JStr (message error))])).

Definition checkDatabase (env : Env) : M JsVal :=
  try_catch
    (response ← global_fetch env
                  (replace "/api" "" (API_BASE_URL env) +:+ "/db-check") None;
     mret (if ok response then JObj [("status", JStr "connected")]
           else JObj [("status", JStr "disconnected")]))
    (λ error, mret (JObj [("status", JStr "error");
                          ("error", JStr (message error))])).

End CartelAPI.

(** ** The client's surface *)

(** A call of one method of the client, with its arguments. *)
Inductive Call :=
  | call_setToken (token userId walletAddress : JsVal)
  | call_clearSession
  | call_fetch (endpoint : string) (options : RequestInit)
  | call_authenticateWallet (walletAddress signature : string)
  | call_getAllGames
  | call_getGamesByCategory (category : string)
  | call_getGame (gameId : string)
  | call_placeBet (gameId : string) (betAmount : Z) (clientSeed : string)
  | call_getBet (betId : string)
  | call_settleBet (betId : string)
  | call_getUserBets (options : JsVal)
  | call_deposit (amount : Z) (tokenSymbol : string)
  | call_withdraw (amount : Z) (tokenSymbol : string)
  | call_getTransactions (type : JsVal)
  | call_checkHealth
  | call_checkDatabase.

Definition invoke (env : Env) (c : Call) : M JsVal :=
  match c with
  | call_setToken t u a => CartelAPI.setToken t u a;; mret JUndefined
  | call_clearSession => CartelAPI.clearSession;; mret JUndefined
  | call_fetch endpoint options => CartelAPI.fetch env endpoint options
  | call_authenticateWallet a s => CartelAPI.authenticateWallet env a s
  | call_getAllGames => CartelAPI.getAllGames env
  | call_getGamesByCategory category => CartelAPI.getGamesByCategory env category
  | call_getGame gameId => CartelAPI.getGame env gameId
  | call_placeBet g b s => CartelAPI.placeBet env g b s
  | call_getBet betId => CartelAPI.getBet env betId
  | call_settleBet betId => CartelAPI.settleBet env betId
  | call_getUserBets options => CartelAPI.getUserBets env options
  | call_deposit a t => CartelAPI.deposit env a t
  | call_withdraw a t => CartelAPI.withdraw env a t
  | call_getTransactions type => CartelAPI.getTransactions env type
  | call_checkHealth => CartelAPI.checkHealth env
  | call_checkDatabase => CartelAPI.checkDatabase env
  end.

(** The requests a call puts on the network: what it adds to the log. *)
Definition sent (env : Env) (c : Call) (w : World) : list Request :=
  drop (length (requests w)) (requests (snd (invoke env c w))).

(** The value of header [k] of a request, if the request carries it. *)
Definition header (k : string) (request : Request) : option string :=
  match init request with
  | Some {| headers := Some h |} => h !! k
  | _ => None
  end.

(** The headers the caller itself hands to a call: only the generic helper
    takes any. *)
Definition caller_headers (c : Call) : gmap string string :=
  match c with
  | call_fetch _ options => default ∅ (headers options)
  | _ => ∅
  end.

(** The two health checks, which call the global [fetch] directly. *)
Definition is_health_check (c : Call) : bool :=
  match c with
  | call_checkHealth | call_checkDatabase => true
  | _ => false
  end.

(** The session field a method tests before it does anything else
    ([if (!this.token) throw ...], [if (!this.userId) throw ...]). *)
Definition session_check (c : Call) : option (World → JsVal) :=
  match c with
  | call_placeBet _ _ _ | call_getBet _ | call_settleBet _
  | call_deposit _ _ | call_withdraw _ _ | call_getTransactions _ => Some token
  | call_getUserBets _ => Some userId
  | _ => None
  end.

(** The calls that leave the session alone: all but [setToken],
    [clearSession] and [authenticateWallet]. *)
Definition keeps_session (c : Call) : bool :=
  match c with
  | call_setToken _ _ _ | call_clearSession | call_authenticateWallet _ _ => false
  | _ => true
  end.

(** The world after a sequence of calls, made one after the other. *)
Definition run_calls (env : Env) (calls : list Call) (w : World) : World :=
  fold_left (λ w c, snd (invoke env c w)) calls w.

(** The request the generic helper hands to the global [fetch] when the
    session token is [token]. *)
Definition fetch_request (env : Env) (endpoint : string) (options : RequestInit)
    (token : JsVal) : Request :=
  {| url := API_BASE_URL env +:+ endpoint;
     init := Some
       {| method := method options;
          body := body options;
          headers := Some
            (if truthy token
             then <[ "Authorization" := "Bearer " +:+ toString token ]>
                    (CartelAPI.default_headers options)
             else CartelAPI.default_headers options) |} |}.

(** The request of [authenticateWallet]. *)
Definition connect_request (env : Env) (address signature : string)
    (token : JsVal) : Request :=
  fetch_request env "/auth/connect"
    {| method := Some "POST";
       headers := None;
       body := JSON_stringify (JObj [("walletAddress", JStr address);
                                     ("signature", JStr signature)]) |} token.

(** The query of [getUserBets], as a list: of status, limit and offset, in
    that order, the properties of the options whose value is truthy. *)
Definition query_param (props : list (string * JsVal)) (k : string) : URLSearchParams :=
  match lookup_prop k props with
  | Some v => if truthy v then [(k, toString v)] else []
  | None => []
  end.

Definition query_of (props : list (string * JsVal)) : URLSearchParams :=
  (query_param props "status" ++ query_param props "limit"
     ++ query_param props "offset")%list.

(** The specification's reading of the root URL of the health checks: the
    base URL with a literal [suffix] stripped from its end. *)
Fixpoint strip_suffix (suffix s : string) : string :=
  if String.eqb s suffix then ""
  else match s with
       | "" => ""
       | String c s' => String c (strip_suffix suffix s')
       end.

(** ** Sample environments and worlds *)

Definition env_of (net : Transport) : Env :=
  {| REACT_APP_BACKEND_URL := None; network := net |}.

(** A server that answers every request with the same response. *)
Definition answering (response : Response) : Transport :=
  λ _ _, Resolves response.

(** An unreachable host. *)
Definition unreachable : Transport :=
  λ _ _, Rejects (TypeError "Failed to fetch").

(** A deployment whose host name starts with [api]. *)
Definition api_host_env : Env :=
  {| REACT_APP_BACKEND_URL := Some "http://api.example.com/api";
     network := unreachable |}.

(** A client constructed over empty storage: no session. *)
Definition fresh : World := CartelAPI.constructor ∅.

(** A client constructed over the storage a login left behind. *)
Definition logged_in : World :=
  CartelAPI.constructor
    (<[ "cartel47_token" := "t1" ]>
       (<[ "cartel47_userId" := "u1" ]>
          (<[ "cartel47_wallet" := "0xABC" ]> ∅))).

(** What [response.json()] rejects with on an HTML error page. *)
Definition html_body_error : JsError :=
  {| name := "SyntaxError";
     message := "Unexpected token '<', <!DOCTYPE ... is not valid JSON" |}.

Definition error_page_500 : Response :=
  {| status := 500; json := Throw html_body_error |}.

Definition invalid_token_401 : Response :=
  {| status := 401; json := Return (JObj [("error", JStr "invalid token")]) |}.

Definition bare_500 : Response :=
  {| status := 500; json := Return (JObj []) |}.


Definition empty_login_response : Response :=
  {| status := 200; json := Return (JObj []) |}.




(** Options that bring their own Authorization and Content-Type headers. *)
Definition own_headers : RequestInit :=
  {| method := None;
     headers := Some (<[ "Authorization" := "Basic abc" ]>
                        (<[ "Content-Type" := "text/plain" ]> ∅));
     body := None |}.

(** ** Further notions *)


(** Header names are compared without regard to ASCII case. *)
Definition ascii_lower (c : Ascii.ascii) : Ascii.ascii :=
  let n := Ascii.N_of_ascii c in
  if ((65 <=? n) && (n <=? 90))%N then Ascii.ascii_of_N (n + 32) else c.

Fixpoint string_lower (s : string) : string :=
  match s with
  | "" => ""
  | String c rest => String (ascii_lower c) (string_lower rest)
  end.

(** Options whose Authorization header is spelled in lower case. *)
Definition lowercase_authorization : RequestInit :=
  {| method := None;
     headers := Some (<[ "authorization" := "Basic abc" ]> ∅);
     body := None |}.

(** A login answered with the JSON body [null]. *)
Definition null_login_response : Response :=
  {| status := 200; json := Return JNull |}.


(** The client a page reload constructs: the storage is the one the previous
    page left, the session is read from it anew, nothing has been sent. *)
Definition reload (w : World) : World := CartelAPI.constructor (localStorage w).

(** The three keys the client keeps in storage. *)
Definition session_keys : list string :=
  ["cartel47_token"; "cartel47_userId"; "cartel47_wallet"].

(** The methods that pass [method: 'POST'] and a body to the helper. *)
Definition is_post (c : Call) : bool :=
  match c with
  | call_authenticateWallet _ _ | call_placeBet _ _ _ | call_settleBet _
  | call_deposit _ _ | call_withdraw _ _ => true
  | _ => false
  end.

(** The methods that start with [if (!this.token) throw ...]. *)
Definition checks_token (c : Call) : bool :=
  match c with
  | call_placeBet _ _ _ | call_getBet _ | call_settleBet _
  | call_deposit _ _ | call_withdraw _ _ | call_getTransactions _ => true
  | _ => false
  end.

(** The options a method hands to the helper: no headers, and a method
    and a body exactly for the five that post. *)
Definition domain_options (c : Call) (options : RequestInit) : Prop :=
  headers options = None
  ∧ method options = (if is_post c then Some "POST" else None)
  ∧ (is_Some (body options) ↔ is_post c = true).

(** [s.indexOf(pattern)]: where [pattern] first occurs in [s], if it does. *)
Fixpoint indexOf (pattern s : string) : option nat :=
  if String.prefix pattern s then Some 0%nat
  else match s with
       | "" => None
       | String _ s' => S <$> indexOf pattern s'
       end.

(** [s.substring(0, n)] *)
Fixpoint first_chars (n : nat) (s : string) : string :=
  match n, s with
  | S n', String c s' => String c (first_chars n' s')
  | _, _ => ""
  end.

(** Every character of [s] satisfies [P]. *)
Fixpoint all_chars (P : Ascii.ascii → bool) (s : string) : bool :=
  match s with
  | "" => true
  | String c rest => P c && all_chars P rest
  end.

(** The characters of an urlencoded name or value: letters, digits, and
    [* - . _ + %]. *)
Definition urlencoded_char (c : Ascii.ascii) : bool :=
  let n := Ascii.N_of_ascii c in
  ((n =? 42) || (n =? 45) || (n =? 46) || (n =? 95) || (n =? 43) || (n =? 37)
   || ((48 <=? n) && (n <=? 57))
   || ((65 <=? n) && (n <=? 90))
   || ((97 <=? n) && (n <=? 122)))%N.

(** The characters of a query string: those, and the separators [=] and [&]. *)
Definition query_char (c : Ascii.ascii) : bool :=
  urlencoded_char c || (Ascii.N_of_ascii c =? 61)%N || (Ascii.N_of_ascii c =? 38)%N.

(** Storage in which only the user id of a session is left. *)
Definition only_userId : World :=
  CartelAPI.constructor (<[ "cartel47_userId" := "u1" ]> ∅).

(** * Properties *)

(** ** Running the methods *)

Lemma ok_2xx response : ok response = true ↔ (200 ≤ status response ≤ 299)%Z.
Proof. unfold ok. rewrite andb_true_iff, !Z.leb_le. tauto. Qed.

(** Unfolds the operations of [M], leaving the method's control flow. *)
Ltac run :=
  cbv [mbind M_bind mret M_ret throw eval try_catch this_token this_userId
       set_this_token set_this_userId set_this_walletAddress
       localStorage_setItem localStorage_removeItem global_fetch].

(** The helper makes exactly one call of the global [fetch], whatever the
    answer, and touches neither the session nor the storage. *)
Lemma fetch_world env endpoint options w :
  snd (CartelAPI.fetch env endpoint options w)
  = logged (fetch_request env endpoint options (token w)) w.
Proof.
  unfold CartelAPI.fetch, fetch_request. run.
  destruct (network env _ _) as [response|e]; [|done].
  destruct (ok response); simpl; [by destruct (json response)|].
  destruct (json response) as [error|e]; [|done].
  by destruct (getProp error "error").
Qed.

(** What the helper completes with, by the answer of the network. *)
Lemma fetch_result env endpoint options w :
  fst (CartelAPI.fetch env endpoint options w) =
  match network env (requests w) (fetch_request env endpoint options (token w)) with
  | Rejects e => Throw e
  | Resolves response =>
      if ok response then json response
      else match json response with
           | Throw e => Throw e
           | Return error =>
               match getProp error "error" with
               | Throw e => Throw e
               | Return field =>
                   Throw (new_Error
                            (if truthy field then field
                             else JStr ("API Error: " +:+ pretty (status response))))
               end
           end
  end.
Proof.
  unfold CartelAPI.fetch, fetch_request. run.
  destruct (network env _ _) as [response|e]; [|done].
  destruct (ok response); simpl; [by destruct (json response)|].
  destruct (json response) as [error|e]; [|done].
  by destruct (getProp error "error").
Qed.

Lemma fetch_run env endpoint options w :
  CartelAPI.fetch env endpoint options w
  = (fst (CartelAPI.fetch env endpoint options w),
     logged (fetch_request env endpoint options (token w)) w).
Proof. rewrite <- fetch_world. by destruct (CartelAPI.fetch _ _ _ _). Qed.

Ltac step_fetch :=
  match goal with
  | |- context [CartelAPI.fetch ?env ?e ?o ?w] =>
      rewrite (fetch_run env e o w);
      destruct (fst (CartelAPI.fetch env e o w))
  end.

(** ** The requests a call sends *)

Lemma sent_nothing env c w :
  requests (snd (invoke env c w)) = requests w → sent env c w = [].
Proof. unfold sent. intros ->. apply drop_all. Qed.

Lemma sent_one env c w request :
  requests (snd (invoke env c w)) = (requests w ++ [request])%list →
  sent env c w = [request].
Proof. unfold sent. intros ->. apply drop_app_length. Qed.

(** A method that is the helper applied to some endpoint and options. *)
Ltac via_fetch method :=
  right; eexists _, _; split;
  [| apply sent_one; simpl; unfold method; by rewrite fetch_world ]; reflexivity.

(** A method that tests the token and then awaits the helper. *)
Ltac guarded method w :=
  let Htoken := fresh "Htoken" in
  destruct (truthy (token w)) eqn:Htoken;
  [ right; eexists _, _; split;
    [| apply sent_one; simpl; unfold method; run; rewrite Htoken; simpl;
       step_fetch; reflexivity ]; reflexivity
  | left; apply sent_nothing; simpl; unfold method; run; by rewrite Htoken ].

(** Every call sends at most one request: none, or the bare URL of a health
    check, or the request the helper builds from the current token. *)
Lemma sent_shape env c w :
  sent env c w = [] ∨
  (if is_health_check c
   then ∃ u, sent env c w = [{| url := u; init := None |}]
   else ∃ endpoint options,
          default ∅ (headers options) = caller_headers c ∧
          sent env c w = [fetch_request env endpoint options (token w)]).
Proof.
  destruct c; simpl.
  - left. by apply sent_nothing.
  - left. by apply sent_nothing.
  - right. exists endpoint, options. split; [done|].
    apply sent_one. simpl. by rewrite fetch_world.
  - right. eexists _, _. split; [|apply sent_one; simpl].
    2:{ unfold CartelAPI.authenticateWallet. run. step_fetch; [|done].
        simpl. destruct (getProp a "token"); [|done].
        by destruct (getProp a "userId"). }
    done.
  - via_fetch CartelAPI.getAllGames.
  - via_fetch CartelAPI.getGamesByCategory.
  - via_fetch CartelAPI.getGame.
  - guarded CartelAPI.placeBet w.
  - guarded CartelAPI.getBet w.
  - guarded CartelAPI.settleBet w.
  - unfold sent. simpl. unfold CartelAPI.getUserBets. run.
    destruct (truthy (userId w)); simpl; [|left; apply drop_all].
    destruct (CartelAPI.getUserBets_params _); simpl; [|left; apply drop_all].
    right. eexists _, _. split; [|step_fetch; simpl; apply drop_app_length]. done.
  - guarded CartelAPI.deposit w.
  - guarded CartelAPI.withdraw w.
  - guarded CartelAPI.getTransactions w.
  - right. eexists. apply sent_one. simpl. unfold CartelAPI.checkHealth. run.
    by destruct (network env _ _).
  - right. eexists. apply sent_one. simpl. unfold CartelAPI.checkDatabase. run.
    by destruct (network env _ _).
Qed.

(** A call that keeps the session changes the world only by its request. *)
Lemma invoke_keeps_session env c w :
  keeps_session c = true →
  snd (invoke env c w) = w ∨ ∃ request, snd (invoke env c w) = logged request w.
Proof.
  destruct c; simpl; try discriminate; intros _;
    try (right; eexists; apply fetch_world).
  - unfold CartelAPI.placeBet. run. destruct (truthy (token w)); simpl; [|by left].
    right. step_fetch; eauto.
  - unfold CartelAPI.getBet. run. destruct (truthy (token w)); simpl; [|by left].
    right. step_fetch; eauto.
  - unfold CartelAPI.settleBet. run. destruct (truthy (token w)); simpl; [|by left].
    right. step_fetch; eauto.
  - unfold CartelAPI.getUserBets. run. destruct (truthy (userId w)); simpl; [|by left].
    destruct (CartelAPI.getUserBets_params _); simpl; [|by left].
    right. step_fetch; eauto.
  - unfold CartelAPI.deposit. run. destruct (truthy (token w)); simpl; [|by left].
    right. step_fetch; eauto.
  - unfold CartelAPI.withdraw. run. destruct (truthy (token w)); simpl; [|by left].
    right. step_fetch; eauto.
  - unfold CartelAPI.getTransactions. run. destruct (truthy (token w)); simpl; [|by left].
    right. step_fetch; eauto.
  - right. unfold CartelAPI.checkHealth. run.
    destruct (network env _ _); simpl; eauto.
  - right. unfold CartelAPI.checkDatabase. run.
    destruct (network env _ _); simpl; eauto.
Qed.

(** The session survives any sequence of such calls. *)
Lemma run_calls_session env calls w :
  Forall (λ c, keeps_session c = true) calls →
  token (run_calls env calls w) = token w
  ∧ userId (run_calls env calls w) = userId w
  ∧ walletAddress (run_calls env calls w) = walletAddress w
  ∧ localStorage (run_calls env calls w) = localStorage w.
Proof.
  intros Hkeep. revert w.
  induction Hkeep as [|c calls Hc _ IH]; intros w; [done|].
  simpl. fold (run_calls env calls (snd (invoke env c w))).
  destruct (IH (snd (invoke env c w))) as (-> & -> & -> & ->).
  by destruct (invoke_keeps_session env c w Hc) as [->|[request ->]].
Qed.

(** ** Headers of the helper's request *)

Lemma default_headers_lookup options k :
  CartelAPI.default_headers options !! k
  = match default ∅ (headers options) !! k with
    | Some v => Some v
    | None => ({[ "Content-Type" := "application/json" ]} : gmap string string) !! k
    end.
Proof.
  unfold CartelAPI.default_headers. rewrite lookup_union.
  destruct (default ∅ (headers options) !! k); by destruct (_ !! k).
Qed.

Lemma header_fetch_request env endpoint options tok k :
  header k (fetch_request env endpoint options tok)
  = if truthy tok && String.eqb k "Authorization"
    then Some ("Bearer " +:+ toString tok)
    else CartelAPI.default_headers options !! k.
Proof.
  unfold header, fetch_request. simpl.
  destruct (truthy tok); simpl; [|done].
  destruct (String.eqb_spec k "Authorization") as [->|Hne].
  - by rewrite lookup_insert_eq.
  - by rewrite lookup_insert_ne.
Qed.

Lemma authorization_fetch_request env endpoint options tok :
  header "Authorization" (fetch_request env endpoint options tok)
  = if truthy tok then Some ("Bearer " +:+ toString tok)
    else default ∅ (headers options) !! "Authorization".
Proof.
  rewrite header_fetch_request, default_headers_lookup. simpl.
  destruct (truthy tok); simpl; [done|].
  by destruct (_ !! "Authorization").
Qed.

(** ** The session checks *)

(** A method whose session field is falsy throws at once: the world is the
    one it was called in, so nothing was sent. *)
Lemma session_check_fails env c field w :
  session_check c = Some field → truthy (field w) = false →
  invoke env c w = (Throw CartelAPI.not_authenticated, w) ∧ sent env c w = [].
Proof.
  intros Hcheck Hfalsy.
  assert (invoke env c w = (Throw CartelAPI.not_authenticated, w)) as Hrun.
  { destruct c; simpl in *; simplify_eq;
      [ unfold CartelAPI.placeBet | unfold CartelAPI.getBet
      | unfold CartelAPI.settleBet | unfold CartelAPI.getUserBets
      | unfold CartelAPI.deposit | unfold CartelAPI.withdraw
      | unfold CartelAPI.getTransactions ];
      run; by rewrite Hfalsy. }
  split; [done|]. apply sent_nothing. by rewrite Hrun.
Qed.

(** ** Login *)


(** ** The query of [getUserBets] *)

Lemma getUserBets_params_query props :
  CartelAPI.getUserBets_params (JObj props) = Return (query_of props).
Proof.
  unfold CartelAPI.getUserBets_params, query_of, query_param. simpl.
  destruct (lookup_prop "status" props) as [status|],
           (lookup_prop "limit" props) as [limit|],
           (lookup_prop "offset" props) as [offset|]; simpl;
    repeat match goal with |- context [truthy ?v] => destruct (truthy v) end;
    reflexivity.
Qed.

Lemma sent_getUserBets env props w :
  truthy (userId w) = true →
  sent env (call_getUserBets (JObj props)) w
  = [fetch_request env
       ("/bets/user/" +:+ toString (userId w) +:+ "?"
          +:+ URLSearchParams_toString (query_of props))
       no_options (token w)].
Proof.
  intros Huser. unfold sent. simpl. unfold CartelAPI.getUserBets. run.
  rewrite Huser, getUserBets_params_query. simpl.
  rewrite fetch_world. simpl. by rewrite drop_app_length.
Qed.

Lemma query_param_spec props name k v :
  (k, v) ∈ query_param props name ↔
  k = name ∧ ∃ x, lookup_prop k props = Some x ∧ truthy x = true ∧ v = toString x.
Proof.
  unfold query_param. split.
  - destruct (lookup_prop name props) as [x|] eqn:Hx; [|by intros ?%elem_of_nil].
    destruct (truthy x) eqn:Hxt; [|by intros ?%elem_of_nil].
    intros [= -> ->]%list_elem_of_singleton. eauto.
  - intros (-> & x & -> & -> & ->). apply list_elem_of_here.
Qed.

Lemma query_of_spec props k v :
  (k, v) ∈ query_of props ↔
  (k = "status" ∨ k = "limit" ∨ k = "offset")
  ∧ ∃ x, lookup_prop k props = Some x ∧ truthy x = true ∧ v = toString x.
Proof.
  unfold query_of. rewrite !elem_of_app, !query_param_spec. tauto.
Qed.

(** ** The root URL of the health checks *)

(** For the default base URL the first "/api" is the trailing one, and the
    health checks fetch from the server's root. *)
Example default_root_url :
  replace "/api" "" (API_BASE_URL (env_of unreachable)) = "http://localhost:3001"
  ∧ strip_suffix "/api" (API_BASE_URL (env_of unreachable)) = "http://localhost:3001".
Proof. split; reflexivity. Qed.

(** * The claims *)

(** C1, counterexample. A 500 response whose body is not JSON: awaiting
    [response.json()] rejects, nothing catches it, and the helper fails with
    the parser's error, whose message is not "API Error: 500". *)
Lemma fetch_unparseable_500_body :
  ¬ (200 ≤ status error_page_500 ≤ 299)%Z
  ∧ json error_page_500 = Throw html_body_error
  ∧ fst (CartelAPI.fetch (env_of (answering error_page_500)) "/games" no_options fresh)
    = Throw html_body_error
  ∧ message html_body_error ≠ "API Error: 500".
Proof.
  split; [simpl; lia|]. split; [reflexivity|]. split; [reflexivity|discriminate].
Qed.

(** C1, amended. When the answer to the helper's request is a response with
    a status outside 200-299, the helper fails: with an [Error] whose message
    is the body's [error] field when the body parses and that field is a
    non-empty string; with the [Error] "API Error: <status>" when the body
    parses to a value other than null whose [error] field is absent or falsy;
    with a TypeError when the body parses to null, whose [error] field cannot
    be read; and with the parser's own error, unchanged, when the body does
    not parse as JSON. *)
Theorem fetch_failure_message env endpoint options w response :
  network env (requests w) (fetch_request env endpoint options (token w))
    = Resolves response →
  ¬ (200 ≤ status response ≤ 299)%Z →
  (∀ error s, json response = Return error →
      getProp error "error" = Return (JStr s) → s ≠ "" →
      fst (CartelAPI.fetch env endpoint options w)
      = Throw {| name := "Error"; message := s |})
  ∧ (∀ error, json response = Return error →
      error ≠ JNull → error ≠ JUndefined →
      ∃ field,
        getProp error "error" = Return field
        ∧ (truthy field = false →
           fst (CartelAPI.fetch env endpoint options w)
           = Throw {| name := "Error";
                      message := "API Error: " +:+ pretty (status response) |}))
  ∧ (json response = Return JNull →
      ∃ msg, fst (CartelAPI.fetch env endpoint options w) = Throw (TypeError msg))
  ∧ (∀ e, json response = Throw e →
      fst (CartelAPI.fetch env endpoint options w) = Throw e).
Proof.
  intros Hnet Hstatus. rewrite fetch_result, Hnet.
  destruct (ok response) eqn:Hok; [by apply ok_2xx in Hok|].
  split_and!.
  - intros error s -> -> Hs. unfold new_Error. simpl.
    destruct (String.eqb_spec s ""); done.
  - intros error -> Hnull Hundef.
    assert (∃ field, getProp error "error" = Return field) as [field Hfield]
      by (destruct error; simpl; eauto; done).
    exists field. split; [done|]. rewrite Hfield. by intros ->.
  - intros ->. simpl. eauto.
  - by intros e ->.
Qed.

Lemma fetch_failure_message_witness :
  fst (CartelAPI.fetch (env_of (answering invalid_token_401))
         "/bets/7" no_options logged_in)
  = Throw {| name := "Error"; message := "invalid token" |}
  ∧ fst (CartelAPI.fetch (env_of (answering bare_500))
           "/bets/7" no_options logged_in)
    = Throw {| name := "Error"; message := "API Error: 500" |}.
Proof.
  split.
  - refine (proj1 (fetch_failure_message (env_of (answering invalid_token_401))
                     "/bets/7" no_options logged_in invalid_token_401 eq_refl _)
              _ "invalid token" eq_refl eq_refl _).
    + simpl. lia.
    + discriminate.
  - destruct (proj1 (proj2 (fetch_failure_message (env_of (answering bare_500))
                              "/bets/7" no_options logged_in bare_500 eq_refl
                              ltac:(simpl; lia)))
                (JObj []) eq_refl ltac:(discriminate) ltac:(discriminate))
      as (field & Hfield & Hthrown).
    injection Hfield as <-. exact (Hthrown eq_refl).
Defined.

(** C2, counterexample. With the token "t1" in the session, [checkHealth]
    calls the global [fetch] with the URL alone: its request has no init,
    hence no Authorization header. *)
Lemma checkHealth_carries_no_bearer :
  token logged_in = JStr "t1"
  ∧ sent (env_of unreachable) call_checkHealth logged_in
    = [{| url := "http://localhost:3001/health"; init := None |}]
  ∧ header "Authorization" {| url := "http://localhost:3001/health"; init := None |}
    = None.
Proof. repeat split. Qed.

(** C2, amended. Of any request sent by any method of the client: the two
    health checks send no headers at all, whatever the session; every other
    method sends its request through the helper, where the Authorization
    header is "Bearer <token>" when the token is truthy (neither null,
    undefined nor the empty string), and otherwise is whatever the caller of
    the helper supplied, which is nothing for the domain methods. *)
Theorem authorization_header_of_sent_requests env c w request :
  request ∈ sent env c w →
  if is_health_check c then init request = None
  else header "Authorization" request
       = if truthy (token w) then Some ("Bearer " +:+ toString (token w))
         else caller_headers c !! "Authorization".
Proof.
  intros Hin. destruct (sent_shape env c w) as [Hnone|Hone].
  { rewrite Hnone in Hin. by apply elem_of_nil in Hin. }
  destruct (is_health_check c).
  - destruct Hone as [u Hone]. rewrite Hone in Hin.
    apply list_elem_of_singleton in Hin. by subst.
  - destruct Hone as (endpoint & options & Hcaller & Hone). rewrite Hone in Hin.
    apply list_elem_of_singleton in Hin. subst request.
    rewrite authorization_fetch_request. by rewrite Hcaller.
Qed.

Lemma authorization_header_of_sent_requests_witness :
  fetch_request (env_of unreachable) "/bets/7" no_options (JStr "t1")
    ∈ sent (env_of unreachable) (call_getBet "7") logged_in
  ∧ header "Authorization"
      (fetch_request (env_of unreachable) "/bets/7" no_options (JStr "t1"))
    = Some "Bearer t1".
Proof.
  assert (fetch_request (env_of unreachable) "/bets/7" no_options (JStr "t1")
          ∈ sent (env_of unreachable) (call_getBet "7") logged_in) as Hin.
  { vm_compute. apply list_elem_of_here. }
  split; [exact Hin|].
  exact (authorization_header_of_sent_requests (env_of unreachable)
           (call_getBet "7") logged_in _ Hin).
Defined.

(** C3. Each of placeBet, getBet, settleBet, deposit, withdraw and
    getTransactions called while the token is null, and getUserBets called
    while the user id is null, fails with the error "Not authenticated" in
    the very world it was called in: no request reaches the network. *)
Theorem auth_required_fails_before_network env c field w :
  session_check c = Some field → field w = JNull →
  invoke env c w = (Throw CartelAPI.not_authenticated, w)
  ∧ message CartelAPI.not_authenticated = "Not authenticated"
  ∧ sent env c w = [].
Proof.
  intros Hcheck Hnull.
  destruct (session_check_fails env c field w Hcheck) as [Hrun Hsent].
  { by rewrite Hnull. }
  done.
Qed.

Lemma auth_required_fails_before_network_witness :
  session_check (call_placeBet "dice" 5 "seed") = Some token
  ∧ token fresh = JNull
  ∧ invoke (env_of unreachable) (call_placeBet "dice" 5 "seed") fresh
    = (Throw CartelAPI.not_authenticated, fresh)
  ∧ sent (env_of unreachable) (call_placeBet "dice" 5 "seed") fresh = [].
Proof.
  split; [reflexivity|]. split; [reflexivity|].
  destruct (auth_required_fails_before_network (env_of unreachable)
              (call_placeBet "dice" 5 "seed") token fresh eq_refl eq_refl)
    as (Hrun & _ & Hsent).
  split; [exact Hrun | exact Hsent].
Defined.

(** C4, counterexample. The options [{offset: 0}] supply an offset, yet the
    query string of the request is empty: [if (options.offset)] is false at 0. *)
Lemma getUserBets_offset_zero_omitted :
  lookup_prop "offset" [("offset", JNum 0)] = Some (JNum 0)
  ∧ url <$> sent (env_of unreachable)
              (call_getUserBets (JObj [("offset", JNum 0)])) logged_in
    = ["http://localhost:3001/api/bets/user/u1?"].
Proof. split; reflexivity. Qed.

(** C4, amended. For every options object, getUserBets (with a user id in
    the session) requests /bets/user/{userId}? followed by the form-urlencoded
    query made, in the order status, limit, offset, of exactly those of the
    three options whose value is truthy; an option that is absent, 0 or the
    empty string is left out. *)
Theorem getUserBets_query env props w :
  truthy (userId w) = true →
  url <$> sent env (call_getUserBets (JObj props)) w
  = [API_BASE_URL env +:+ "/bets/user/" +:+ toString (userId w) +:+ "?"
       +:+ URLSearchParams_toString (query_of props)]
  ∧ ∀ k v, (k, v) ∈ query_of props ↔
      (k = "status" ∨ k = "limit" ∨ k = "offset")
      ∧ ∃ x, lookup_prop k props = Some x ∧ truthy x = true ∧ v = toString x.
Proof.
  intros Huser. split.
  - by rewrite sent_getUserBets.
  - apply query_of_spec.
Qed.

Lemma getUserBets_query_witness :
  truthy (userId logged_in) = true
  ∧ url <$> sent (env_of unreachable)
              (call_getUserBets (JObj [("status", JStr "pending"); ("limit", JNum 10)]))
              logged_in
    = ["http://localhost:3001/api/bets/user/u1?status=pending&limit=10"].
Proof.
  split; [reflexivity|].
  exact (proj1 (getUserBets_query (env_of unreachable)
                  [("status", JStr "pending"); ("limit", JNum 10)] logged_in eq_refl)).
Defined.

(** C5. With the base URL http://api.example.com/api, the health checks do
    not fetch the base URL stripped of its /api suffix: [replace] removes the
    first "/api" of the string, which is the one in front of the host name. *)
Theorem health_root_url_removes_first_api :
  API_BASE_URL api_host_env = "http://api.example.com/api"
  ∧ url <$> sent api_host_env call_checkHealth fresh
    = ["http:/.example.com/api/health"]
  ∧ url <$> sent api_host_env call_checkDatabase fresh
    = ["http:/.example.com/api/db-check"]
  ∧ strip_suffix "/api" (API_BASE_URL api_host_env) = "http://api.example.com".
Proof. repeat split. Qed.

(** C6. Neither health check ever throws. Whatever the network does with
    the request, [checkHealth] returns a status record: offline with the
    failure's message when the transport fails, healthy on a 2xx response,
    unhealthy on any other; [checkDatabase] likewise with error, connected
    and disconnected. *)
Theorem health_checks_never_raise env w :
  (∃ v, fst (CartelAPI.checkHealth env w) = Return v ∧
     match network env (requests w)
             {| url := replace "/api" "" (API_BASE_URL env) +:+ "/health";
                init := None |} with
     | Rejects error =>
         v = JObj [("status", JStr "offline"); ("error", JStr (message error))]
     | Resolves response =>
         ((200 ≤ status response ≤ 299)%Z → v = JObj [("status", JStr "healthy")])
         ∧ (¬ (200 ≤ status response ≤ 299)%Z →
            v = JObj [("status", JStr "unhealthy")])
     end)
  ∧
  (∃ v, fst (CartelAPI.checkDatabase env w) = Return v ∧
     match network env (requests w)
             {| url := replace "/api" "" (API_BASE_URL env) +:+ "/db-check";
                init := None |} with
     | Rejects error =>
         v = JObj [("status", JStr "error"); ("error", JStr (message error))]
     | Resolves response =>
         ((200 ≤ status response ≤ 299)%Z → v = JObj [("status", JStr "connected")])
         ∧ (¬ (200 ≤ status response ≤ 299)%Z →
            v = JObj [("status", JStr "disconnected")])
     end).
Proof.
  split.
  - unfold CartelAPI.checkHealth. run.
    destruct (network env _ _) as [response|error]; simpl; eexists; (split; [done|]).
    + destruct (ok response) eqn:Hok.
      * apply ok_2xx in Hok. split; [done|]. intros Hn. by destruct Hn.
      * split; [|done]. intros H2xx. apply ok_2xx in H2xx. congruence.
    + done.
  - unfold CartelAPI.checkDatabase. run.
    destruct (network env _ _) as [response|error]; simpl; eexists; (split; [done|]).
    + destruct (ok response) eqn:Hok.
      * apply ok_2xx in Hok. split; [done|]. intros Hn. by destruct Hn.
      * split; [|done]. intros H2xx. apply ok_2xx in H2xx. congruence.
    + done.
Qed.

(** C8. setToken(t, u, a) followed by clearSession() leaves the three
    session fields null and none of the three storage keys present. *)
Theorem setToken_then_clearSession t u a w :
  fst ((CartelAPI.setToken t u a;; CartelAPI.clearSession) w) = Return ()
  ∧ token (snd ((CartelAPI.setToken t u a;; CartelAPI.clearSession) w)) = JNull
  ∧ userId (snd ((CartelAPI.setToken t u a;; CartelAPI.clearSession) w)) = JNull
  ∧ walletAddress (snd ((CartelAPI.setToken t u a;; CartelAPI.clearSession) w)) = JNull
  ∧ localStorage (snd ((CartelAPI.setToken t u a;; CartelAPI.clearSession) w))
      !! "cartel47_token" = None
  ∧ localStorage (snd ((CartelAPI.setToken t u a;; CartelAPI.clearSession) w))
      !! "cartel47_userId" = None
  ∧ localStorage (snd ((CartelAPI.setToken t u a;; CartelAPI.clearSession) w))
      !! "cartel47_wallet" = None.
Proof.
  simpl. split_and!; try done; by simplify_map_eq.
Qed.




(** C9, counterexample. Header names do not depend on case, the properties
    of an object do. With the token "t1" in the session and a caller that
    spells its header [authorization], the helper adds [Authorization] beside
    it: the headers handed to the global [fetch] hold the caller's value too,
    under a name equal to Authorization up to case, so what goes out under
    that name is not "Bearer t1" alone. *)
Lemma caller_authorization_in_other_case_survives :
  truthy (token logged_in) = true
  ∧ header "Authorization"
      <$> sent (env_of unreachable) (call_fetch "/games" lowercase_authorization)
            logged_in
    = [Some "Bearer t1"]
  ∧ header "authorization"
      <$> sent (env_of unreachable) (call_fetch "/games" lowercase_authorization)
            logged_in
    = [Some "Basic abc"]
  ∧ string_lower "authorization" = string_lower "Authorization".
Proof. repeat split. Qed.

(** C9, amended. In the helper the caller's headers are merged before the
    bearer token is applied, property by property and by exact name. With a
    truthy token the property [Authorization] of the request's headers is
    "Bearer <token>" whatever the caller supplied under that very name; a
    caller's header under another spelling of the name is kept beside it, so
    Authorization is "Bearer <token>" alone when the caller supplied it under
    no other spelling. Whether or not there is a token, a [Content-Type]
    header of the caller replaces the default application/json, and every
    other header of the caller is passed on as it is. *)
Theorem fetch_header_precedence env endpoint options w :
  ∃ request,
    sent env (call_fetch endpoint options) w = [request]
    ∧ header "Content-Type" request
      = Some (default "application/json"
                (default ∅ (headers options) !! "Content-Type"))
    ∧ (∀ k, k ≠ "Authorization" → k ≠ "Content-Type" →
         header k request = default ∅ (headers options) !! k)
    ∧ (truthy (token w) = true →
         header "Authorization" request = Some ("Bearer " +:+ toString (token w))
         ∧ ((∀ k, is_Some (default ∅ (headers options) !! k) →
                  string_lower k = "authorization" → k = "Authorization") →
            ∀ k v, header k request = Some v →
                   string_lower k = "authorization" →
                   v = "Bearer " +:+ toString (token w))).
Proof.
  exists (fetch_request env endpoint options (token w)).
  split; [apply sent_one; simpl; by rewrite fetch_world|].
  split_and!.
  - rewrite header_fetch_request, andb_false_r, default_headers_lookup.
    by destruct (_ !! "Content-Type").
  - intros k Hauth Hct. rewrite header_fetch_request, default_headers_lookup.
    destruct (String.eqb_spec k "Authorization"); [done|].
    rewrite andb_false_r.
    destruct (default ∅ (headers options) !! k); [done|].
    by rewrite lookup_singleton_ne.
  - intros Htoken. split; [by rewrite authorization_fetch_request, Htoken|].
    intros Hcaller k v Hk Hlower.
    rewrite header_fetch_request, Htoken in Hk. simpl in Hk.
    destruct (String.eqb_spec k "Authorization") as [->|Hne]; [congruence|].
    rewrite default_headers_lookup in Hk.
    destruct (default ∅ (headers options) !! k) as [v'|] eqn:Hsupplied.
    + destruct Hne. apply Hcaller; [by rewrite Hsupplied|done].
    + destruct (decide (k = "Content-Type")) as [->|Hct]; [done|].
      by rewrite lookup_singleton_ne in Hk.
Qed.

Lemma fetch_header_precedence_witness :
  truthy (token logged_in) = true
  ∧ ∃ request,
      sent (env_of unreachable) (call_fetch "/games" own_headers) logged_in = [request]
      ∧ header "Authorization" request = Some "Bearer t1"
      ∧ header "Content-Type" request = Some "text/plain".
Proof.
  split; [reflexivity|].
  destruct (fetch_header_precedence (env_of unreachable) "/games" own_headers
              logged_in) as (request & Hsent & Hct & _ & Hauth).
  exists request. split; [exact Hsent|].
  split; [exact (proj1 (Hauth eq_refl)) | exact Hct].
Defined.




(** * Further properties of the client *)

(** ** Strings *)

Lemma append_empty_r s : s +:+ "" = s.
Proof.
  induction s as [|c s IH]; [done|].
  change (String c (s +:+ "") = String c s). by rewrite IH.
Qed.

Lemma append_assoc a b c : (a +:+ b) +:+ c = a +:+ (b +:+ c).
Proof.
  induction a as [|x a IH]; [done|].
  change (String x ((a +:+ b) +:+ c) = String x (a +:+ (b +:+ c))).
  by rewrite IH.
Qed.

(** ** Session and storage *)

Lemma truthy_toString_of_falsy t :
  truthy t = false → t ≠ JStr "" → truthy (JStr (toString t)) = true.
Proof.
  destruct t as [| |[]|n|s| |]; simpl; try done.
  - destruct (Z.eqb_spec n 0) as [->|]; [done|]. done.
  - destruct (String.eqb_spec s "") as [->|]; done.
Qed.

Lemma checks_token_session_check c :
  checks_token c = true → session_check c = Some token.
Proof. by destruct c. Qed.

Lemma reload_after_setToken t u a w :
  reload (snd (CartelAPI.setToken t u a w))
  = {| token := JStr (toString t); userId := JStr (toString u);
       walletAddress := JStr (toString a);
       localStorage := localStorage (snd (CartelAPI.setToken t u a w));
       requests := [] |}.
Proof.
  unfold reload, CartelAPI.constructor, getItem. simpl.
  f_equal; by simplify_map_eq.
Qed.

(** A method that checks the token and finds one sends its request. *)
Lemma guarded_sends env c w :
  checks_token c = true → truthy (token w) = true →
  ∃ endpoint options,
    sent env c w = [fetch_request env endpoint options (token w)].
Proof.
  intros Hcheck Htruthy.
  destruct (sent_shape env c w) as [Hnone|Hone].
  - exfalso. revert Hnone. unfold sent.
    destruct c; try discriminate Hcheck; simpl;
      [ unfold CartelAPI.placeBet | unfold CartelAPI.getBet
      | unfold CartelAPI.settleBet | unfold CartelAPI.deposit
      | unfold CartelAPI.withdraw | unfold CartelAPI.getTransactions ];
      run; rewrite Htruthy; simpl; step_fetch; simpl;
      rewrite drop_app_length; discriminate.
  - destruct c; try discriminate Hcheck; simpl in Hone;
      destruct Hone as (endpoint & options & _ & Hone); eauto.
Qed.

(** X1. What [setToken] stores is what a reloaded page reads back: the
    constructor over the storage left by setToken(t, u, a) restores each
    field as the string form of the value set (a string comes back as
    itself), with an empty request log. *)
Theorem session_survives_reload t u a w :
  token (reload (snd (CartelAPI.setToken t u a w))) = JStr (toString t)
  ∧ userId (reload (snd (CartelAPI.setToken t u a w))) = JStr (toString u)
  ∧ walletAddress (reload (snd (CartelAPI.setToken t u a w))) = JStr (toString a)
  ∧ requests (reload (snd (CartelAPI.setToken t u a w))) = [].
Proof. by rewrite reload_after_setToken. Qed.

(** X2. A falsy token other than the empty string (undefined, null, false,
    0) is not a session for the live client, whose token-checking methods
    throw "Not authenticated"; but [setToken] has stored its string form, so
    after a reload the same method passes its check and sends
    "Bearer undefined" (or null, false, 0). *)
Theorem falsy_token_is_truthy_after_reload env c t u a w :
  checks_token c = true →
  truthy t = false → t ≠ JStr "" →
  invoke env c (snd (CartelAPI.setToken t u a w))
  = (Throw CartelAPI.not_authenticated, snd (CartelAPI.setToken t u a w))
  ∧ header "Authorization"
      <$> sent env c (reload (snd (CartelAPI.setToken t u a w)))
    = [Some ("Bearer " +:+ toString t)].
Proof.
  intros Hcheck Hfalsy Hne. split.
  - exact (proj1 (session_check_fails env c token
                    (snd (CartelAPI.setToken t u a w))
                    (checks_token_session_check c Hcheck) Hfalsy)).
  - pose proof (truthy_toString_of_falsy t Hfalsy Hne) as Htruthy.
    destruct (guarded_sends env c (reload (snd (CartelAPI.setToken t u a w))))
      as (endpoint & options & Hsent); [done|by rewrite reload_after_setToken|].
    rewrite Hsent, reload_after_setToken.
    change (header "Authorization" <$> [?x]) with [header "Authorization" x].
    rewrite header_fetch_request. cbn [token]. by rewrite Htruthy.
Qed.

Lemma falsy_token_is_truthy_after_reload_witness :
  invoke (env_of unreachable) (call_getBet "7")
    (snd (CartelAPI.setToken JUndefined JUndefined (JStr "0xABC") fresh))
  = (Throw CartelAPI.not_authenticated,
     snd (CartelAPI.setToken JUndefined JUndefined (JStr "0xABC") fresh))
  ∧ header "Authorization"
      <$> sent (env_of unreachable) (call_getBet "7")
            (reload (snd (CartelAPI.setToken JUndefined JUndefined (JStr "0xABC") fresh)))
    = [Some "Bearer undefined"].
Proof.
  exact (falsy_token_is_truthy_after_reload (env_of unreachable) (call_getBet "7")
           JUndefined JUndefined (JStr "0xABC") fresh eq_refl eq_refl
           ltac:(discriminate)).
Defined.

(** X3. [setToken] and [clearSession] write only the three cartel47 keys:
    every other key of the storage reads as before, and neither sends
    anything. *)
Theorem session_operations_touch_only_their_keys t u a w k :
  k ∉ session_keys →
  localStorage (snd (CartelAPI.setToken t u a w)) !! k = localStorage w !! k
  ∧ localStorage (snd (CartelAPI.clearSession w)) !! k = localStorage w !! k
  ∧ requests (snd (CartelAPI.setToken t u a w)) = requests w
  ∧ requests (snd (CartelAPI.clearSession w)) = requests w.
Proof.
  unfold session_keys. rewrite !not_elem_of_cons. intros (Ht & Hu & Ha & _).
  simpl. split_and!; try done.
  - by rewrite !lookup_insert_ne.
  - by rewrite !lookup_delete_ne.
Qed.

Lemma session_operations_touch_only_their_keys_witness :
  localStorage (snd (CartelAPI.setToken (JStr "t2") (JStr "u2") (JStr "0xDEF")
                       (CartelAPI.constructor (<[ "theme" := "dark" ]> ∅))))
    !! "theme" = Some "dark"
  ∧ localStorage (snd (CartelAPI.clearSession
                         (CartelAPI.constructor (<[ "theme" := "dark" ]> ∅))))
      !! "theme" = Some "dark".
Proof.
  destruct (session_operations_touch_only_their_keys
              (JStr "t2") (JStr "u2") (JStr "0xDEF")
              (CartelAPI.constructor (<[ "theme" := "dark" ]> ∅)) "theme")
    as (Hset & Hclear & _).
  { unfold session_keys. rewrite !not_elem_of_cons. split_and!; try discriminate.
    apply not_elem_of_nil. }
  split; [exact Hset | exact Hclear].
Defined.

(** X4. A logout survives a reload: the constructor over the storage left
    by [clearSession] has a null session, and every method that checks the
    session throws "Not authenticated" on it. *)
Theorem clearSession_survives_reload env c field w :
  session_check c = Some field →
  token (reload (snd (CartelAPI.clearSession w))) = JNull
  ∧ userId (reload (snd (CartelAPI.clearSession w))) = JNull
  ∧ walletAddress (reload (snd (CartelAPI.clearSession w))) = JNull
  ∧ invoke env c (reload (snd (CartelAPI.clearSession w)))
    = (Throw CartelAPI.not_authenticated, reload (snd (CartelAPI.clearSession w))).
Proof.
  intros Hcheck.
  assert (reload (snd (CartelAPI.clearSession w))
          = {| token := JNull; userId := JNull; walletAddress := JNull;
               localStorage := localStorage (snd (CartelAPI.clearSession w));
               requests := [] |}) as ->.
  { unfold reload, CartelAPI.constructor, getItem. simpl.
    f_equal; by simplify_map_eq. }
  split_and!; try done.
  refine (proj1 (session_check_fails env c field _ Hcheck _)).
  destruct c; by simplify_eq/=.
Qed.

Lemma clearSession_survives_reload_witness :
  token (reload (snd (CartelAPI.clearSession logged_in))) = JNull
  ∧ invoke (env_of unreachable) (call_getUserBets JUndefined)
      (reload (snd (CartelAPI.clearSession logged_in)))
    = (Throw CartelAPI.not_authenticated,
       reload (snd (CartelAPI.clearSession logged_in))).
Proof.
  destruct (clearSession_survives_reload (env_of unreachable)
              (call_getUserBets JUndefined) userId logged_in eq_refl)
    as (Htoken & _ & _ & Hfails).
  split; [exact Htoken | exact Hfails].
Defined.

(** The two session operations, run. *)
Lemma setToken_run t u a w :
  CartelAPI.setToken t u a w
  = (Return (),
     {| token := t; userId := u; walletAddress := a;
        localStorage :=
          <[ "cartel47_wallet" := toString a ]>
            (<[ "cartel47_userId" := toString u ]>
               (<[ "cartel47_token" := toString t ]> (localStorage w)));
        requests := requests w |}).
Proof. reflexivity. Qed.

Lemma clearSession_run w :
  CartelAPI.clearSession w
  = (Return (),
     {| token := JNull; userId := JNull; walletAddress := JNull;
        localStorage :=
          delete "cartel47_wallet"
            (delete "cartel47_userId" (delete "cartel47_token" (localStorage w)));
        requests := requests w |}).
Proof. reflexivity. Qed.

(** X5. Of two session operations in a row the last one decides the whole
    state (fields and storage): setToken after setToken or clearSession is
    that setToken alone, clearSession after setToken or clearSession is
    clearSession alone. *)
Theorem last_session_operation_wins t u a t' u' a' w :
  (CartelAPI.setToken t' u' a';; CartelAPI.setToken t u a) w
    = CartelAPI.setToken t u a w
  ∧ (CartelAPI.clearSession;; CartelAPI.setToken t u a) w
    = CartelAPI.setToken t u a w
  ∧ (CartelAPI.setToken t u a;; CartelAPI.clearSession) w
    = CartelAPI.clearSession w
  ∧ (CartelAPI.clearSession;; CartelAPI.clearSession) w
    = CartelAPI.clearSession w.
Proof.
  unfold mbind, M_bind.
  rewrite !(setToken_run _ _ _ w), !(clearSession_run w).
  rewrite !setToken_run, !clearSession_run.
  cbn [token userId walletAddress localStorage requests].
  split_and!; do 2 f_equal; apply map_eq; intros k;
    repeat (rewrite lookup_insert || rewrite lookup_delete);
    repeat case_decide; done.
Qed.

(** ** The network log *)

Lemma invoke_requests env c w :
  requests (snd (invoke env c w)) = requests w
  ∨ ∃ request, requests (snd (invoke env c w)) = (requests w ++ [request])%list.
Proof.
  destruct (keeps_session c) eqn:Hkeep.
  - destruct (invoke_keeps_session env c w Hkeep) as [->|[request ->]]; eauto.
  - destruct c; try discriminate Hkeep; simpl; [by left|by left|].
    right. unfold CartelAPI.authenticateWallet. run. step_fetch; [|eauto].
    simpl. destruct (getProp a "token"); [|eauto].
    destruct (getProp a "userId"); eauto.
Qed.

(** X6. No method retries or sends twice: a call appends to the log of
    network calls exactly the requests it sent, and these are at most one,
    whatever the network answers. *)
Theorem every_call_sends_at_most_one_request env c w :
  requests (snd (invoke env c w)) = (requests w ++ sent env c w)%list
  ∧ (length (sent env c w) ≤ 1)%nat.
Proof.
  unfold sent.
  destruct (invoke_requests env c w) as [->|[request ->]].
  - rewrite drop_all, app_nil_r. split; [done|]. simpl. lia.
  - rewrite drop_app_length. split; [done|]. simpl. lia.
Qed.

(** X7. Only setToken, clearSession and authenticateWallet change the
    session: any sequence of the other methods, whatever they send and
    whatever comes back, leaves the three fields and the storage as they
    were, and logs at most one request per call. *)
Theorem domain_calls_keep_session env calls w :
  Forall (λ c, keeps_session c = true) calls →
  token (run_calls env calls w) = token w
  ∧ userId (run_calls env calls w) = userId w
  ∧ walletAddress (run_calls env calls w) = walletAddress w
  ∧ localStorage (run_calls env calls w) = localStorage w
  ∧ (length (requests (run_calls env calls w))
     ≤ length (requests w) + length calls)%nat.
Proof.
  intros Hkeep.
  destruct (run_calls_session env calls w Hkeep) as (Ht & Hu & Ha & Hs).
  split_and!; try done.
  clear. revert w. induction calls as [|c calls IH]; intros w; simpl; [lia|].
  fold (run_calls env calls (snd (invoke env c w))).
  specialize (IH (snd (invoke env c w))).
  destruct (invoke_requests env c w) as [Hreq|[request Hreq]];
    rewrite Hreq in IH; rewrite ?length_app in IH; simpl in IH; lia.
Qed.

Lemma domain_calls_keep_session_witness :
  token (run_calls (env_of (answering bare_500))
           [call_getAllGames; call_placeBet "dice" 5 "seed"; call_checkHealth]
           logged_in) = JStr "t1"
  ∧ localStorage (run_calls (env_of (answering bare_500))
                    [call_getAllGames; call_placeBet "dice" 5 "seed"; call_checkHealth]
                    logged_in) = localStorage logged_in.
Proof.
  destruct (domain_calls_keep_session (env_of (answering bare_500))
              [call_getAllGames; call_placeBet "dice" 5 "seed"; call_checkHealth]
              logged_in)
    as (Ht & _ & _ & Hs & _).
  { repeat constructor. }
  split; [exact Ht | exact Hs].
Defined.

(** X8. A login whose request does not bring back a usable body changes
    nothing but the request log: when the network rejects the request, or
    answers with a status outside 200-299, or answers 2xx with a body that
    does not parse or is null, authenticateWallet throws, and session and
    storage are those from before the call. *)
Theorem failed_login_keeps_session env address signature w :
  match network env (requests w)
          (connect_request env address signature (token w)) with
  | Rejects _ => True
  | Resolves response =>
      ¬ (200 ≤ status response ≤ 299)%Z
      ∨ (∃ e, json response = Throw e)
      ∨ json response = Return JNull
  end →
  ∃ e, CartelAPI.authenticateWallet env address signature w
       = (Throw e, logged (connect_request env address signature (token w)) w).
Proof.
  unfold CartelAPI.authenticateWallet. run.
  rewrite fetch_run, fetch_result.
  fold (connect_request env address signature (token w)).
  destruct (network env _ _) as [response|e]; [|eauto].
  destruct (ok response) eqn:Hok.
  - apply ok_2xx in Hok. intros [Hstatus|[[e ->]| ->]]; [done| |]; simpl; eauto.
  - intros _. destruct (json response) as [error|e]; [|eauto].
    destruct (getProp error "error"); eauto.
Qed.

Lemma failed_login_keeps_session_witness :
  ∃ e, CartelAPI.authenticateWallet (env_of (answering invalid_token_401))
         "0xDEF" "sig" logged_in
       = (Throw e,
          logged (connect_request (env_of (answering invalid_token_401))
                    "0xDEF" "sig" (JStr "t1")) logged_in).
Proof.
  apply (failed_login_keeps_session (env_of (answering invalid_token_401))
           "0xDEF" "sig" logged_in).
  left. simpl. lia.
Defined.

(** ** What the methods complete with *)

Lemma sent_authenticateWallet env address signature w :
  sent env (call_authenticateWallet address signature) w
  = [connect_request env address signature (token w)].
Proof.
  apply sent_one. simpl. unfold CartelAPI.authenticateWallet. run.
  rewrite fetch_run. fold (connect_request env address signature (token w)).
  destruct (fst (CartelAPI.fetch _ _ _ _)) as [data|e]; [|done].
  simpl. destruct (getProp data "token"); [|done].
  by destruct (getProp data "userId").
Qed.

(** A method that keeps the session and is no health check either stops at
    its guard or is the helper applied to some endpoint and options. *)
Lemma invoke_via_fetch env c w :
  keeps_session c = true → is_health_check c = false →
  sent env c w = [] ∨
  ∃ endpoint options, invoke env c w = CartelAPI.fetch env endpoint options w.
Proof.
  assert (∀ endpoint options,
            (data ← CartelAPI.fetch env endpoint options; mret data) w
            = CartelAPI.fetch env endpoint options w) as Hret.
  { intros endpoint options. run. rewrite fetch_run.
    by destruct (fst (CartelAPI.fetch _ _ _ _)). }
  destruct c as [| | | | |category|gameId|gameId betAmount clientSeed|betId|betId
                |options|amount tokenSymbol|amount tokenSymbol|type| |];
    try discriminate; intros _ _; simpl;
    try (right; eexists _, _; reflexivity).
  - destruct (truthy (token w)) eqn:Htoken.
    + right. eexists _, _. unfold CartelAPI.placeBet.
      rewrite <- Hret. run. by rewrite Htoken.
    + left. apply sent_nothing. simpl. unfold CartelAPI.placeBet. run.
      by rewrite Htoken.
  - destruct (truthy (token w)) eqn:Htoken.
    + right. exists ("/bets/" +:+ betId), no_options. unfold CartelAPI.getBet.
      run. by rewrite Htoken.
    + left. apply sent_nothing. simpl. unfold CartelAPI.getBet. run.
      by rewrite Htoken.
  - destruct (truthy (token w)) eqn:Htoken.
    + right. eexists _, _. unfold CartelAPI.settleBet.
      rewrite <- Hret. run. by rewrite Htoken.
    + left. apply sent_nothing. simpl. unfold CartelAPI.settleBet. run.
      by rewrite Htoken.
  - unfold CartelAPI.getUserBets. run.
    destruct (truthy (userId w)) eqn:Huser; simpl.
    2:{ left. apply sent_nothing. simpl. unfold CartelAPI.getUserBets. run.
        by rewrite Huser. }
    destruct (CartelAPI.getUserBets_params _) eqn:Hparams; simpl.
    + right. eexists _, _. reflexivity.
    + left. apply sent_nothing. simpl. unfold CartelAPI.getUserBets. run.
      by rewrite Huser, Hparams.
  - destruct (truthy (token w)) eqn:Htoken.
    + right. eexists _, _. unfold CartelAPI.deposit. run. by rewrite Htoken.
    + left. apply sent_nothing. simpl. unfold CartelAPI.deposit. run.
      by rewrite Htoken.
  - destruct (truthy (token w)) eqn:Htoken.
    + right. eexists _, _. unfold CartelAPI.withdraw. run. by rewrite Htoken.
    + left. apply sent_nothing. simpl. unfold CartelAPI.withdraw. run.
      by rewrite Htoken.
  - destruct (truthy (token w)) eqn:Htoken.
    + right. eexists _, _. unfold CartelAPI.getTransactions. run.
      by rewrite Htoken.
    + left. apply sent_nothing. simpl. unfold CartelAPI.getTransactions. run.
      by rewrite Htoken.
Qed.

(** In the second case the request is the helper's. *)
Lemma invoke_via_fetch_request env c w request :
  keeps_session c = true → is_health_check c = false →
  sent env c w = [request] →
  ∃ endpoint options,
    invoke env c w = CartelAPI.fetch env endpoint options w
    ∧ request = fetch_request env endpoint options (token w).
Proof.
  intros Hkeep Hhealth Hsent.
  destruct (invoke_via_fetch env c w Hkeep Hhealth)
    as [Hnone|(endpoint & options & Hrun)]; [congruence|].
  exists endpoint, options. split; [done|].
  revert Hsent. unfold sent. rewrite Hrun, fetch_world. simpl.
  rewrite drop_app_length. congruence.
Qed.

(** X9. Outside the health checks a transport failure is not caught: when
    the network rejects the request of a call, the call throws that very
    error, and the world is changed by the logged request only. *)
Theorem transport_failure_propagates env c w request e :
  is_health_check c = false →
  sent env c w = [request] →
  network env (requests w) request = Rejects e →
  invoke env c w = (Throw e, logged request w).
Proof.
  intros Hhealth Hsent Hnet.
  destruct (keeps_session c) eqn:Hkeep.
  - destruct (invoke_via_fetch_request env c w request Hkeep Hhealth Hsent)
      as (endpoint & options & -> & ->).
    by rewrite fetch_run, fetch_result, Hnet.
  - destruct c as [| | |address signature| | | | | | | | | | | |];
      try discriminate Hkeep.
    + by rewrite sent_nothing in Hsent.
    + by rewrite sent_nothing in Hsent.
    + rewrite sent_authenticateWallet in Hsent. injection Hsent as <-.
      simpl. unfold CartelAPI.authenticateWallet. run.
      rewrite fetch_run, fetch_result.
      fold (connect_request env address signature (token w)).
      by rewrite Hnet.
Qed.

Lemma transport_failure_propagates_witness :
  invoke (env_of unreachable) (call_deposit 10 "USDC") logged_in
  = (Throw (TypeError "Failed to fetch"),
     logged (fetch_request (env_of unreachable) "/transactions/deposit"
               {| method := Some "POST"; headers := None;
                  body := JSON_stringify (JObj [("amount", JNum 10);
                                                ("tokenSymbol", JStr "USDC")]) |}
               (JStr "t1")) logged_in).
Proof.
  exact (transport_failure_propagates (env_of unreachable)
           (call_deposit 10 "USDC") logged_in _ _ eq_refl eq_refl eq_refl).
Defined.

(** X10. No method but authenticateWallet looks at a successful answer: on
    a 2xx response the call completes with what [response.json()] completes
    with (the parsed body as it is, or the parser's error) and changes
    nothing but the log. *)
Theorem success_body_is_returned_verbatim env c w request response :
  keeps_session c = true → is_health_check c = false →
  sent env c w = [request] →
  network env (requests w) request = Resolves response →
  (200 ≤ status response ≤ 299)%Z →
  invoke env c w = (json response, logged request w).
Proof.
  intros Hkeep Hhealth Hsent Hnet Hok%ok_2xx.
  destruct (invoke_via_fetch_request env c w request Hkeep Hhealth Hsent)
    as (endpoint & options & -> & ->).
  by rewrite fetch_run, fetch_result, Hnet, Hok.
Qed.

Lemma success_body_is_returned_verbatim_witness :
  fst (invoke (env_of (answering empty_login_response)) (call_getGame "dice") fresh)
  = Return (JObj []).
Proof.
  exact (f_equal fst
           (success_body_is_returned_verbatim (env_of (answering empty_login_response))
              (call_getGame "dice") fresh _ empty_login_response
              eq_refl eq_refl eq_refl eq_refl ltac:(simpl; lia))).
Defined.



(** ** The options of [getUserBets] *)

(** X12. getUserBets with a user id in the session: omitted options, and
    options that are a boolean, a number, a string or an array, behave as
    the empty options and request /bets/user/{userId}? with an empty query;
    null options throw a TypeError before anything is sent. *)
Theorem getUserBets_options_edge_cases env w :
  truthy (userId w) = true →
  invoke env (call_getUserBets JUndefined) w = invoke env (call_getUserBets (JObj [])) w
  ∧ (∀ b, invoke env (call_getUserBets (JBool b)) w
          = invoke env (call_getUserBets (JObj [])) w)
  ∧ (∀ n, invoke env (call_getUserBets (JNum n)) w
          = invoke env (call_getUserBets (JObj [])) w)
  ∧ (∀ s, invoke env (call_getUserBets (JStr s)) w
          = invoke env (call_getUserBets (JObj [])) w)
  ∧ (∀ items, invoke env (call_getUserBets (JArr items)) w
              = invoke env (call_getUserBets (JObj [])) w)
  ∧ url <$> sent env (call_getUserBets (JObj [])) w
    = [API_BASE_URL env +:+ "/bets/user/" +:+ toString (userId w) +:+ "?"]
  ∧ (∃ msg, invoke env (call_getUserBets JNull) w = (Throw (TypeError msg), w)).
Proof.
  intros Huser. split_and!; try done.
  - rewrite sent_getUserBets by done. simpl. by rewrite append_empty_r.
  - simpl. unfold CartelAPI.getUserBets. run. rewrite Huser. simpl. eauto.
Qed.

Lemma getUserBets_options_edge_cases_witness :
  url <$> sent (env_of unreachable) (call_getUserBets (JNum 3)) logged_in
  = ["http://localhost:3001/api/bets/user/u1?"]
  ∧ sent (env_of unreachable) (call_getUserBets JNull) logged_in = [].
Proof.
  destruct (getUserBets_options_edge_cases (env_of unreachable) logged_in eq_refl)
    as (_ & _ & Hnum & _ & _ & Hurl & msg & Hnull).
  split.
  - unfold sent. rewrite (Hnum 3%Z). exact Hurl.
  - apply sent_nothing. by rewrite Hnull.
Defined.

(** X13. getUserBets checks the user id only: with a user id but no
    (truthy) token in the session it still sends its request, without an
    Authorization header. *)
Theorem getUserBets_does_not_check_the_token env props w :
  truthy (userId w) = true → truthy (token w) = false →
  ∃ request,
    sent env (call_getUserBets (JObj props)) w = [request]
    ∧ header "Authorization" request = None
    ∧ url request
      = API_BASE_URL env +:+ "/bets/user/" +:+ toString (userId w) +:+ "?"
          +:+ URLSearchParams_toString (query_of props).
Proof.
  intros Huser Htoken. eexists. split; [by apply sent_getUserBets|].
  split; [|done]. by rewrite authorization_fetch_request, Htoken.
Qed.

Lemma getUserBets_does_not_check_the_token_witness :
  token only_userId = JNull
  ∧ ∃ request,
      sent (env_of unreachable) (call_getUserBets (JObj [])) only_userId = [request]
      ∧ header "Authorization" request = None
      ∧ url request = "http://localhost:3001/api/bets/user/u1?".
Proof.
  split; [reflexivity|].
  exact (getUserBets_does_not_check_the_token (env_of unreachable) [] only_userId
           eq_refl eq_refl).
Defined.

(** ** Methods, bodies and content type *)

Ltac domain_options_done :=
  split_and!; simpl;
  [ reflexivity | reflexivity
  | split; [ first [ done | by intros [? [=]] ] | first [ done | by eauto ] ] ].

Ltac guarded_domain method w :=
  let Htoken := fresh "Htoken" in
  destruct (truthy (token w)) eqn:Htoken;
  [ right; eexists _, _; split;
    [ apply sent_one; simpl; unfold method; run; rewrite Htoken; simpl;
      step_fetch; reflexivity
    | domain_options_done ]
  | left; apply sent_nothing; simpl; unfold method; run; by rewrite Htoken ].

Ltac plain_domain method :=
  right; eexists _, _; split;
  [ apply sent_one; simpl; unfold method; by rewrite fetch_world
  | domain_options_done ].

Lemma sent_domain env c w :
  is_health_check c = false →
  (∀ endpoint options, c ≠ call_fetch endpoint options) →
  sent env c w = [] ∨
  ∃ endpoint options,
    sent env c w = [fetch_request env endpoint options (token w)]
    ∧ domain_options c options.
Proof.
  intros Hhealth Hfetch.
  destruct c as [| |endpoint options|address signature| |category|gameId
                |gameId betAmount clientSeed|betId|betId|options
                |amount tokenSymbol|amount tokenSymbol|type| |];
    try discriminate Hhealth.
  - left. by apply sent_nothing.
  - left. by apply sent_nothing.
  - by destruct (Hfetch endpoint options).
  - right. eexists _, _. split; [apply sent_authenticateWallet|].
    domain_options_done.
  - plain_domain CartelAPI.getAllGames.
  - plain_domain CartelAPI.getGamesByCategory.
  - plain_domain CartelAPI.getGame.
  - guarded_domain CartelAPI.placeBet w.
  - guarded_domain CartelAPI.getBet w.
  - guarded_domain CartelAPI.settleBet w.
  - unfold sent. simpl. unfold CartelAPI.getUserBets. run.
    destruct (truthy (userId w)); simpl; [|left; apply drop_all].
    destruct (CartelAPI.getUserBets_params _); simpl; [|left; apply drop_all].
    right. eexists _, _. split; [step_fetch; simpl; apply drop_app_length|].
    domain_options_done.
  - guarded_domain CartelAPI.deposit w.
  - guarded_domain CartelAPI.withdraw w.
  - guarded_domain CartelAPI.getTransactions w.
Qed.

(** X14. Of every request sent by a method other than the health checks
    and the raw helper: it is a POST with a body exactly when the method is
    authenticateWallet, placeBet, settleBet, deposit or withdraw, and has
    neither method nor body otherwise; its Content-Type is application/json
    and it carries no header besides Content-Type and Authorization. *)
Theorem posts_carry_a_body env c w request :
  request ∈ sent env c w →
  is_health_check c = false →
  (∀ endpoint options, c ≠ call_fetch endpoint options) →
  ∃ i, init request = Some i
       ∧ method i = (if is_post c then Some "POST" else None)
       ∧ (is_Some (body i) ↔ is_post c = true)
       ∧ header "Content-Type" request = Some "application/json"
       ∧ ∀ k, k ≠ "Content-Type" → k ≠ "Authorization" → header k request = None.
Proof.
  intros Hin Hhealth Hfetch.
  destruct (sent_domain env c w Hhealth Hfetch)
    as [Hnone|(endpoint & options & Hsent & Hheaders & Hmethod & Hbody)].
  { rewrite Hnone in Hin. by apply elem_of_nil in Hin. }
  rewrite Hsent in Hin. apply list_elem_of_singleton in Hin. subst request.
  eexists. split; [reflexivity|]. cbn [method body].
  split; [done|]. split; [done|]. split.
  - rewrite header_fetch_request, andb_false_r, default_headers_lookup.
    by rewrite Hheaders.
  - intros k Hct Hauth. rewrite header_fetch_request, default_headers_lookup.
    destruct (String.eqb_spec k "Authorization"); [done|].
    rewrite andb_false_r, Hheaders. simpl. by rewrite lookup_singleton_ne.
Qed.

Lemma posts_carry_a_body_witness :
  ∃ i, init (fetch_request (env_of unreachable) "/bets/7/settle"
               {| method := Some "POST"; headers := None;
                  body := JSON_stringify (JObj []) |} (JStr "t1")) = Some i
       ∧ method i = Some "POST"
       ∧ body i = Some "{}"
       ∧ header "Content-Type"
           (fetch_request (env_of unreachable) "/bets/7/settle"
              {| method := Some "POST"; headers := None;
                 body := JSON_stringify (JObj []) |} (JStr "t1"))
         = Some "application/json".
Proof.
  destruct (posts_carry_a_body (env_of unreachable) (call_settleBet "7") logged_in
              (fetch_request (env_of unreachable) "/bets/7/settle"
                 {| method := Some "POST"; headers := None;
                    body := JSON_stringify (JObj []) |} (JStr "t1")))
    as (i & Hinit & Hmethod & _ & Hct & _).
  - vm_compute. apply list_elem_of_here.
  - reflexivity.
  - discriminate.
  - exists i. split; [exact Hinit|]. split; [exact Hmethod|].
    split; [|exact Hct]. by injection Hinit as <-.
Defined.

(** ** The query string *)

Lemma all_chars_app P a b :
  all_chars P (a +:+ b) = all_chars P a && all_chars P b.
Proof.
  induction a as [|c a IH]; simpl; [done|]. by rewrite IH, andb_assoc.
Qed.

Lemma urlencode_byte_chars c : all_chars urlencoded_char (urlencode_byte c) = true.
Proof. destruct c as [[] [] [] [] [] [] [] []]; reflexivity. Qed.

Lemma urlencode_chars s : all_chars urlencoded_char (urlencode s) = true.
Proof.
  induction s as [|c s IH]; simpl; [done|].
  by rewrite all_chars_app, urlencode_byte_chars, IH.
Qed.

Lemma all_chars_weaken (P Q : Ascii.ascii → bool) s :
  (∀ c, P c = true → Q c = true) → all_chars P s = true → all_chars Q s = true.
Proof.
  intros HPQ. induction s as [|c s IH]; simpl; [done|].
  rewrite !andb_true_iff. intros [Hc Hs]. auto.
Qed.

(** X15. The query string of getUserBets cannot be broken by its values:
    an urlencoded name or value consists of letters, digits and [* - . _ + %]
    only, so the query after the [?] holds no character besides these and
    the separators [=] and [&]. *)
Theorem query_string_is_url_safe :
  (∀ s, all_chars urlencoded_char (urlencode s) = true)
  ∧ (∀ params, all_chars query_char (URLSearchParams_toString params) = true)
  ∧ (∀ env props w request,
       truthy (userId w) = true →
       request ∈ sent env (call_getUserBets (JObj props)) w →
       ∃ query,
         url request = API_BASE_URL env +:+ "/bets/user/" +:+ toString (userId w)
                         +:+ "?" +:+ query
         ∧ all_chars query_char query = true).
Proof.
  assert (∀ s, all_chars query_char (urlencode s) = true) as Henc.
  { intros s. apply (all_chars_weaken urlencoded_char); [|apply urlencode_chars].
    intros c Hc. unfold query_char. by rewrite Hc. }
  assert (∀ params, all_chars query_char (URLSearchParams_toString params) = true)
    as Hquery.
  { induction params as [|[k v] params IH]; [done|].
    simpl. destruct params as [|p params].
    - by rewrite !all_chars_app, !Henc.
    - rewrite !all_chars_app, !Henc. simpl in *. by rewrite IH. }
  split; [apply urlencode_chars|]. split; [done|].
  intros env props w request Huser Hin.
  rewrite sent_getUserBets in Hin by done.
  apply list_elem_of_singleton in Hin. subst request.
  eexists. split; [reflexivity|apply Hquery].
Qed.

Lemma query_string_is_url_safe_witness :
  urlencode "won & lost/2" = "won+%26+lost%2F2"
  ∧ all_chars urlencoded_char (urlencode "won & lost/2") = true.
Proof.
  split; [reflexivity|].
  exact (proj1 query_string_is_url_safe "won & lost/2").
Defined.

(** ** [replace] and the root URL *)

(** [replace] is: find the first occurrence with [indexOf], keep what comes
    before and after it. *)
Lemma replace_indexOf p r s :
  replace p r s
  = match indexOf p s with
    | None => s
    | Some i => first_chars i s +:+ r +:+ skip (i + String.length p) s
    end.
Proof.
  induction s as [|c s IH].
  - destruct p; reflexivity.
  - cbn [replace indexOf]. destruct (String.prefix p (String c s)); [reflexivity|].
    rewrite IH. destruct (indexOf p s); reflexivity.
Qed.

(** [indexOf] finds an occurrence and none starts before it. *)
Lemma indexOf_first p s i :
  indexOf p s = Some i →
  String.prefix p (skip i s) = true
  ∧ ∀ j, (j < i)%nat → String.prefix p (skip j s) = false.
Proof.
  revert i. induction s as [|c s IH]; intros i.
  - destruct p; [|discriminate]. intros [= <-]. split; [reflexivity|lia].
  - cbn [indexOf]. destruct (String.prefix p (String c s)) eqn:Hp.
    + intros [= <-]. split; [exact Hp|lia].
    + destruct (indexOf p s) as [i'|]; [|discriminate]. intros [= <-].
      destruct (IH i' eq_refl) as [Hat Hbefore]. split; [exact Hat|].
      intros [|j] Hj; [exact Hp|]. apply Hbefore. lia.
Qed.

Lemma first_chars_app a b : first_chars (String.length a) (a +:+ b) = a.
Proof. induction a as [|c a IH]; simpl; [by destruct b|]. by rewrite IH. Qed.

Lemma skip_app a b n : skip (String.length a + n) (a +:+ b) = skip n b.
Proof. induction a as [|c a IH]; simpl; [done|]. by rewrite IH. Qed.

Lemma sent_checkHealth env w :
  sent env call_checkHealth w
  = [{| url := replace "/api" "" (API_BASE_URL env) +:+ "/health"; init := None |}].
Proof.
  apply sent_one. simpl. unfold CartelAPI.checkHealth. run.
  by destruct (network env _ _).
Qed.

Lemma sent_checkDatabase env w :
  sent env call_checkDatabase w
  = [{| url := replace "/api" "" (API_BASE_URL env) +:+ "/db-check"; init := None |}].
Proof.
  apply sent_one. simpl. unfold CartelAPI.checkDatabase. run.
  by destruct (network env _ _).
Qed.

(** X16. Which URLs the health checks fetch, by where "/api" first occurs in
    the base URL: when it does not occur, the base URL itself followed by
    /health and /db-check; when its first occurrence is after [root], the
    base URL with those four characters cut out. *)
Theorem health_check_urls env w :
  (indexOf "/api" (API_BASE_URL env) = None →
     url <$> sent env call_checkHealth w = [API_BASE_URL env +:+ "/health"]
     ∧ url <$> sent env call_checkDatabase w = [API_BASE_URL env +:+ "/db-check"])
  ∧ (∀ root rest,
       API_BASE_URL env = root +:+ "/api" +:+ rest →
       indexOf "/api" (API_BASE_URL env) = Some (String.length root) →
       url <$> sent env call_checkHealth w = [root +:+ rest +:+ "/health"]
       ∧ url <$> sent env call_checkDatabase w = [root +:+ rest +:+ "/db-check"]).
Proof.
  rewrite sent_checkHealth, sent_checkDatabase. simpl.
  rewrite replace_indexOf. split.
  - by intros ->.
  - intros root rest Hbase ->. rewrite Hbase.
    rewrite first_chars_app. simpl String.length.
    rewrite (skip_app root ("/api" +:+ rest) 4). simpl.
    by rewrite !append_assoc.
Qed.

Lemma health_check_urls_witness :
  url <$> sent (env_of unreachable) call_checkHealth fresh
  = ["http://localhost:3001/health"]
  ∧ url <$> sent {| REACT_APP_BACKEND_URL := Some "https://cartel47.example/v2";
                    network := unreachable |} call_checkDatabase fresh
    = ["https://cartel47.example/v2/db-check"].
Proof.
  split.
  - exact (proj1 (proj2 (health_check_urls (env_of unreachable) fresh)
                    "http://localhost:3001" "" eq_refl eq_refl)).
  - exact (proj2 (proj1 (health_check_urls
                           {| REACT_APP_BACKEND_URL := Some "https://cartel47.example/v2";
                              network := unreachable |} fresh) eq_refl)).
Defined.

(** X17. getTransactions with a token in the session: a missing, null,
    empty or zero type requests /transactions without a query; any other
    type is appended after [?type=] as its string form, unencoded. *)
Theorem getTransactions_type_edge_cases env type w :
  truthy (token w) = true →
  (truthy type = false →
     url <$> sent env (call_getTransactions type) w
     = [API_BASE_URL env +:+ "/transactions"])
  ∧ (truthy type = true →
     url <$> sent env (call_getTransactions type) w
     = [API_BASE_URL env +:+ "/transactions?type=" +:+ toString type]).
Proof.
  intros Htoken. split; intros Htype.
  - rewrite (sent_one env _ w
               (fetch_request env "/transactions" no_options (token w))); [done|].
    simpl. unfold CartelAPI.getTransactions. run. rewrite Htoken. simpl.
    assert (truthy match type with JUndefined => JNull | _ => type end = false)
      as -> by (by destruct type).
    by rewrite fetch_world.
  - rewrite (sent_one env _ w
               (fetch_request env ("/transactions?type=" +:+ toString type)
                  no_options (token w))); [done|].
    simpl. unfold CartelAPI.getTransactions. run. rewrite Htoken. simpl.
    assert (match type with JUndefined => JNull | _ => type end = type)
      as -> by (by destruct type).
    rewrite Htype. by rewrite fetch_world.
Qed.

Lemma getTransactions_type_edge_cases_witness :
  url <$> sent (env_of unreachable) (call_getTransactions JUndefined) logged_in
  = ["http://localhost:3001/api/transactions"]
  ∧ url <$> sent (env_of unreachable) (call_getTransactions (JStr "a&b=c")) logged_in
    = ["http://localhost:3001/api/transactions?type=a&b=c"].
Proof.
  split.
  - exact (proj1 (getTransactions_type_edge_cases (env_of unreachable) JUndefined
                    logged_in eq_refl) eq_refl).
  - exact (proj2 (getTransactions_type_edge_cases (env_of unreachable) (JStr "a&b=c")
                    logged_in eq_refl) eq_refl).
Defined.

(** ** Stored tokens and null bodies *)

(** X18. Which stored tokens authenticate a freshly constructed client: a
    token key that is absent or holds the empty string makes every
    token-checking method throw "Not authenticated"; any non-empty stored
    string is sent as "Bearer <string>". *)
Theorem stored_token_authenticates_iff_nonempty env c storage :
  checks_token c = true →
  ((storage !! "cartel47_token" = None ∨ storage !! "cartel47_token" = Some "") →
     invoke env c (CartelAPI.constructor storage)
     = (Throw CartelAPI.not_authenticated, CartelAPI.constructor storage))
  ∧ (∀ s, storage !! "cartel47_token" = Some s → s ≠ "" →
       header "Authorization" <$> sent env c (CartelAPI.constructor storage)
       = [Some ("Bearer " +:+ s)]).
Proof.
  intros Hcheck. split.
  - intros Hstored.
    refine (proj1 (session_check_fails env c token (CartelAPI.constructor storage)
                     (checks_token_session_check c Hcheck) _)).
    unfold CartelAPI.constructor, getItem. simpl. by destruct Hstored as [-> | ->].
  - intros s Hs Hne.
    assert (token (CartelAPI.constructor storage) = JStr s) as Htoken.
    { unfold CartelAPI.constructor, getItem. simpl. by rewrite Hs. }
    assert (truthy (JStr s) = true) as Htruthy.
    { simpl. by destruct (String.eqb_spec s ""). }
    destruct (guarded_sends env c (CartelAPI.constructor storage))
      as (endpoint & options & Hsent); [done|by rewrite Htoken|].
    rewrite Hsent, Htoken.
    change (header "Authorization" <$> [?x]) with [header "Authorization" x].
    by rewrite header_fetch_request, Htruthy.
Qed.

Lemma stored_token_authenticates_iff_nonempty_witness :
  invoke (env_of unreachable) (call_withdraw 5 "USDC")
    (CartelAPI.constructor (<[ "cartel47_token" := "" ]> ∅))
  = (Throw CartelAPI.not_authenticated,
     CartelAPI.constructor (<[ "cartel47_token" := "" ]> ∅))
  ∧ header "Authorization"
      <$> sent (env_of unreachable) (call_withdraw 5 "USDC")
            (CartelAPI.constructor (<[ "cartel47_token" := "t9" ]> ∅))
    = [Some "Bearer t9"].
Proof.
  split.
  - exact (proj1 (stored_token_authenticates_iff_nonempty (env_of unreachable)
                    (call_withdraw 5 "USDC") (<[ "cartel47_token" := "" ]> ∅) eq_refl)
             (or_intror eq_refl)).
  - exact (proj2 (stored_token_authenticates_iff_nonempty (env_of unreachable)
                    (call_withdraw 5 "USDC") (<[ "cartel47_token" := "t9" ]> ∅) eq_refl)
             "t9" eq_refl ltac:(discriminate)).
Defined.

(** X19. A login answered 2xx with the JSON body [null] fails after the
    request was made: reading [token] of null throws a TypeError, and the
    session and storage are left as they were. *)
Theorem login_with_null_body_fails env address signature w response :
  network env (requests w) (connect_request env address signature (token w))
    = Resolves response →
  (200 ≤ status response ≤ 299)%Z →
  json response = Return JNull →
  ∃ msg,
    CartelAPI.authenticateWallet env address signature w
    = (Throw (TypeError msg),
       logged (connect_request env address signature (token w)) w).
Proof.
  intros Hnet Hok%ok_2xx Hjson.
  unfold CartelAPI.authenticateWallet. run.
  rewrite fetch_run, fetch_result.
  fold (connect_request env address signature (token w)).
  rewrite Hnet, Hok, Hjson. simpl. eauto.
Qed.

Lemma login_with_null_body_fails_witness :
  ∃ msg,
    CartelAPI.authenticateWallet
      (env_of (answering {| status := 200; json := Return JNull |}))
      "0xDEF" "sig" logged_in
    = (Throw (TypeError msg),
       logged (connect_request
                 (env_of (answering {| status := 200; json := Return JNull |}))
                 "0xDEF" "sig" (JStr "t1")) logged_in).
Proof.
  exact (login_with_null_body_fails
           (env_of (answering {| status := 200; json := Return JNull |}))
           "0xDEF" "sig" logged_in {| status := 200; json := Return JNull |}
           eq_refl ltac:(simpl; lia) eq_refl).
Defined.
